(** * Document similarity checker: a shallow embedding of [checker.py] and
      [gui_app.py], and the properties of the scoring pipeline.

    Conventions of the embedding.
    - A Python [str] is a list of Unicode code points ([pystr]).
    - A Python [float] score is an exact rational ([Q]); comparisons of
      finite floats agree with comparisons of the rationals they denote.
      Rounding, infinities and NaN are outside the model.
    - An exception is a value [Raise e] of the type [result].
    - Console output ([print], [st.warning], ...) is a list of [event]s,
      threaded through the [io] monad together with the pending input lines.
    - The file system and the document parsers (pathlib, PyPDF2,
      python-docx) are the environment: a [file] records what each of them
      answers for that file.
    - The report files are the event [Reports_saved] with their rows; errors
      of the file system while writing them are outside the model, and so
      are the side-by-side viewer and the sample generator. *)

From Stdlib Require Import String Ascii.
From Stdlib Require Import List Bool Arith ZArith NArith QArith Qround Lia Lqa.
From Stdlib Require Import Permutation Sorted.
Import ListNotations.

Set Implicit Arguments.

(* ===================================================================== *)
(** ** Python strings                                                     *)
(* ===================================================================== *)

Definition char := N.
Definition pystr := list char.

(** An ASCII literal of the source as a [pystr]. *)
Definition py (s : string) : pystr :=
  map N_of_ascii (list_ascii_of_string s).

Arguments py s%_string.

Definition pystr_eqb (a b : pystr) : bool :=
  if list_eq_dec N.eq_dec a b then true else false.

(** [str.isspace] on one character (CPython's [_PyUnicode_IsWhitespace]). *)
Definition is_space (c : char) : bool :=
  (((9 <=? c) && (c <=? 13)) || ((28 <=? c) && (c <=? 32))
   || (c =? 133) || (c =? 160) || (c =? 5760)
   || ((8192 <=? c) && (c <=? 8202))
   || (c =? 8232) || (c =? 8233) || (c =? 8239) || (c =? 8287)
   || (c =? 12288))%N.

Fixpoint lstrip (s : pystr) : pystr :=
  match s with
  | [] => []
  | c :: t => if is_space c then lstrip t else s
  end.

Definition rstrip (s : pystr) : pystr := rev (lstrip (rev s)).

(** [s.strip()] *)
Definition strip (s : pystr) : pystr := rstrip (lstrip s).

(** Truth value of a string: [if text.strip():]. *)
Definition truthy (s : pystr) : bool :=
  match s with [] => false | _ :: _ => true end.

(** [s.lower()] restricted to the ASCII letters.  A comparison of the result
    with an ASCII literal of lower-case letters and dots has the outcome of
    Python's: no character outside A-Z lower-cases to one of the letters
    of ".txt", ".pdf" or ".docx". *)
Definition lower_char (c : char) : char :=
  (if (65 <=? c) && (c <=? 90) then c + 32 else c)%N.

Definition lower (s : pystr) : pystr := map lower_char s.

(** [s.endswith(suffix)] *)
Definition endswith (s suffix : pystr) : bool :=
  pystr_eqb (skipn (length s - length suffix) s) suffix
  && (length suffix <=? length s)%nat.

(** [name.rfind('.')]: index of the last dot. *)
Fixpoint rfind_dot (s : pystr) : option nat :=
  match s with
  | [] => None
  | c :: t =>
      match rfind_dot t with
      | Some i => Some (S i)
      | None => if (c =? 46)%N then Some O else None
      end
  end.

(** [PurePath.suffix]: the part of the name from its last dot, when that dot
    is neither the first nor the last character. *)
Definition suffix (name : pystr) : pystr :=
  match rfind_dot name with
  | Some i =>
      if (0 <? i)%nat && (i <? length name - 1)%nat then skipn i name else []
  | None => []
  end.

(* ===================================================================== *)
(** ** Exceptions and results                                             *)
(* ===================================================================== *)

Inductive exn : Type :=
| FileNotFoundError
| ValueError
| IndexError
| ZeroDivisionError
| EOFError
| OSError          (* the file cannot be read *)
| PdfReadError     (* PyPDF2 rejects the file *)
| PackageNotFoundError. (* python-docx rejects the file *)

Inductive result (A : Type) : Type :=
| Ok (a : A)
| Raise (e : exn).

Arguments Ok {A} a.
Arguments Raise {A} e.

(** A document as the environment presents it: a [Path] of the submissions
    folder or an uploaded file of the GUI.  [read_text] is the outcome of
    reading and decoding it as UTF-8 with [errors="ignore"] ([Path.read_text]
    for a path, which also translates line ends, [read().decode] for an
    upload; no statement compares the two texts of one file); [pdf_pages] the
    outcome of [PyPDF2.PdfReader] and of [extract_text] on each page ([None]
    for a page without text); [docx_paragraphs] the outcome of
    [docx.Document] and the text of each paragraph. *)
Record file : Type := {
  name : pystr;
  read_text : result pystr;
  pdf_pages : result (list (option pystr));
  docx_paragraphs : result (list pystr)
}.

(** A score in percent, and one row of the report. *)
Definition pair_result : Type := (pystr * pystr * Q)%type.

Definition score (r : pair_result) : Q := snd r.

(* ===================================================================== *)
(** ** Risk labels and float comparison                                    *)
(* ===================================================================== *)

Definition HIGH_RISK : pystr := py "HIGH RISK " ++ [128308%N].
Definition MEDIUM_RISK : pystr := py "MEDIUM RISK " ++ [128992%N].
Definition MILD_SIMILARITY : pystr := py "MILD SIMILARITY " ++ [128993%N].
Definition SAFE : pystr := py "SAFE " ++ [128994%N].

(** [score >= bound] on floats. *)
Definition ge (x y : Q) : bool := Qle_bool y x.

(* ===================================================================== *)
(** ** Console, input lines and the [io] monad                            *)
(* ===================================================================== *)

(** What the programs print or show; the text of each message is quoted
    from the source. *)
Inductive event : Type :=
| Banner
    (* "=== Document Similarity Checker ===" and the two mode lines *)
| Skipping_unsupported (n : pystr)
    (* "Skipping unsupported file: {f.name}" *)
| Empty_after_extraction (n : pystr)
    (* "Warning: {f.name} is empty after extraction, skipping." *)
| Invalid_threshold
    (* "Invalid input! Using default threshold = 50%" *)
| Loaded (n : pystr) (characters : nat)
    (* "- {f.name}: {len(t)} characters" *)
| Using_enhanced
    (* "Using Enhanced Semantic Similarity..." *)
| Using_standard
    (* "Using Standard TF-IDF Similarity..." *)
| No_pairs_to_compare
    (* "No document pairs to compare." *)
| Summary (total_documents total_comparisons : nat)
          (highest lowest : pair_result) (average : Q)
    (* the five summary lines or metrics *)
| Result_line (above_threshold : bool) (r : pair_result) (risk : pystr)
    (* "{f1} <--> {f2} : {score:.2f}%  [{risk}]" *)
| Reports_saved (rows : list (pair_result * pystr))
    (* the rows written to the CSV, TXT, XLSX or PDF report *)
| Highest_match (f1 f2 : pystr)
    (* "Highest match: {highest[0]} <--> {highest[1]}" *)
| Highest_similarity (r : pair_result) (badge : pystr)
    (* the "Highest Similarity" box with its plagiarism status *)
| Upload_at_least_two
    (* "Please upload at least two documents." *)
| Could_not_be_processed (n : pystr)
    (* "{f.name} could not be processed (empty text)." *)
| Not_enough_valid.
    (* "Not enough valid documents to compare." *)

Record world : Type := {
  stdin : list pystr;   (* the lines still to be read by [input] *)
  stdout : list event   (* everything shown so far, oldest first *)
}.

Definition io (A : Type) : Type := world -> world * result A.

Definition ret {A} (a : A) : io A := fun w => (w, Ok a).

Definition raise {A} (e : exn) : io A := fun w => (w, Raise e).

Definition bind {A B} (m : io A) (k : A -> io B) : io B :=
  fun w =>
    match m w with
    | (w', Ok a) => k a w'
    | (w', Raise e) => (w', Raise e)
    end.

Definition lift {A} (r : result A) : io A := fun w => (w, r).

Definition print (e : event) : io unit :=
  fun w => ({| stdin := stdin w; stdout := stdout w ++ [e] |}, Ok tt).

(** [input(prompt)]: the next line, [EOFError] when there is none. *)
Definition input : io pystr :=
  fun w =>
    match stdin w with
    | [] => (w, Raise EOFError)
    | l :: rest => ({| stdin := rest; stdout := stdout w |}, Ok l)
    end.

(** [try: m  except Exception: handler]; every [exn] of the model is a
    subclass of [Exception]. *)
Definition try_except {A} (m : io A) (handler : io A) : io A :=
  fun w =>
    match m w with
    | (w', Ok a) => (w', Ok a)
    | (w', Raise _) => handler w'
    end.

Declare Scope io_scope.
Delimit Scope io_scope with io.
Notation "x <- m ;; k" := (bind m (fun x => k))
  (at level 61, m at next level, right associativity) : io_scope.
Notation "' p <- m ;; k" := (bind m (fun x => let p := x in k))
  (at level 61, p pattern, m at next level, right associativity) : io_scope.
Notation "m ;; k" := (bind m (fun _ => k))
  (at level 61, right associativity) : io_scope.

Fixpoint for_each {A} (l : list A) (body : A -> io unit) : io unit :=
  match l with
  | [] => ret tt
  | a :: rest => bind (body a) (fun _ => for_each rest body)
  end.

(* ===================================================================== *)
(** ** Text extraction                                                    *)
(* ===================================================================== *)

(** [text = ""; for page in reader.pages: text += page.extract_text() or ""] *)
Definition pdf_text (pages : list (option pystr)) : pystr :=
  fold_left
    (fun text page =>
       text ++ match page with Some t => t | None => [] end)
    pages [].

(** [sep.join(parts)] *)
Fixpoint join (sep : pystr) (parts : list pystr) : pystr :=
  match parts with
  | [] => []
  | [p] => p
  | p :: rest => p ++ sep ++ join sep rest
  end.

Definition newline : pystr := [10%N].

Definition SUBMISSIONS_DIR : pystr := py "submissions".

(* ===================================================================== *)
(** ** Built-ins: indexing, ranges, sum, division, sorting                *)
(* ===================================================================== *)

Definition bind_result {A B} (r : result A) (k : A -> result B) : result B :=
  match r with
  | Ok a => k a
  | Raise e => Raise e
  end.

Fixpoint mapM {A B} (f : A -> result B) (l : list A) : result (list B) :=
  match l with
  | [] => Ok []
  | a :: rest =>
      bind_result (f a) (fun b =>
      bind_result (mapM f rest) (fun bs => Ok (b :: bs)))
  end.

(** [l[i]] for [i >= 0]: [IndexError] out of range. *)
Definition index {A} (l : list A) (i : nat) : result A :=
  match nth_error l i with
  | Some a => Ok a
  | None => Raise IndexError
  end.

(** [l[-1]] *)
Definition index_last {A} (l : list A) : result A :=
  match rev l with
  | a :: _ => Ok a
  | [] => Raise IndexError
  end.

(** [range(a, b)] *)
Definition range (a b : nat) : list nat := seq a (b - a).

(** [sum(xs)]: starts from 0 and adds from the left. *)
Definition sum (xs : list Q) : Q := fold_left Qplus xs 0.

(** [x / n] for a float [x] and [n = len(...)]. *)
Definition py_div (x : Q) (n : nat) : result Q :=
  match n with
  | O => Raise ZeroDivisionError
  | S _ => Ok (x / inject_Z (Z.of_nat n))
  end.

(** A numpy matrix as the list of its rows; [M[i, j]] with [i, j >= 0]. *)
Definition matrix : Type := list (list Q).

Definition matrix_get (M : matrix) (i j : nat) : result Q :=
  bind_result (index M i) (fun row => index row j).

(** [results.sort(key=lambda x: x[2], reverse=True)].  Python's sort is
    stable, also with [reverse=True]: the result is the one list that is in
    descending order of the key and keeps rows of equal key in their
    original order (see [sort_desc_unique]), which is what this insertion
    sort computes. *)
Fixpoint insert_desc (x : pair_result) (l : list pair_result)
  : list pair_result :=
  match l with
  | [] => [x]
  | y :: rest =>
      if Qle_bool (score y) (score x) then x :: y :: rest
      else y :: insert_desc x rest
  end.

Definition sort_desc (l : list pair_result) : list pair_result :=
  fold_right insert_desc [] l.

(* ===================================================================== *)
(** ** sklearn: cosine similarity of the rows of a feature matrix         *)
(* ===================================================================== *)

Section Sklearn.

(** The square root used by [sklearn.preprocessing.normalize]. *)
Variable sqrt : Q -> Q.

Definition dot (u v : list Q) : Q :=
  sum (map (fun p => fst p * snd p) (combine u v)).

(** [normalize(X)]: each row divided by its Euclidean norm, a zero norm
    being replaced by 1. *)
Definition normalize_row (u : list Q) : list Q :=
  let norm := sqrt (dot u u) in
  let norm := if Qeq_bool norm 0 then 1 else norm in
  map (fun x => x / norm) u.

(** [cosine_similarity(X)]: [normalize(X) @ normalize(X).T] *)
Definition cosine_similarity (X : matrix) : matrix :=
  let Xn := map normalize_row X in
  map (fun u => map (fun v => dot u v) Xn) Xn.

End Sklearn.

(* ===================================================================== *)
(** ** Flattening and aggregation (the same text in both entry points)    *)
(* ===================================================================== *)

(** The pairs [(i, j)] of [for i in range(n): for j in range(i + 1, n)]. *)
Definition index_pairs (n : nat) : list (nat * nat) :=
  flat_map (fun i => map (fun j => (i, j)) (range (i + 1) n)) (range 0 n).

(** The body of the two loops: [score = sim_matrix[i, j] * 100] and the
    row [(names[i], names[j], score)]. *)
Definition pair_result_at (names : list pystr) (sim_matrix : matrix)
           (ij : nat * nat) : result pair_result :=
  let '(i, j) := ij in
  bind_result (matrix_get sim_matrix i j) (fun m =>
  bind_result (index names i) (fun ni =>
  bind_result (index names j) (fun nj =>
  Ok (ni, nj, m * 100)))).

Definition pair_results (names : list pystr) (sim_matrix : matrix)
  : result (list pair_result) :=
  mapM (pair_result_at names sim_matrix) (index_pairs (length names)).

(** [highest = results[0]], [lowest = results[-1]] and
    [avg = sum(r[2] for r in results) / len(results)]. *)
Definition summarize (results : list pair_result)
  : result (pair_result * pair_result * Q) :=
  bind_result (index results 0) (fun highest =>
  bind_result (index_last results) (fun lowest =>
  bind_result (py_div (sum (map score results)) (length results))
    (fun avg => Ok (highest, lowest, avg)))).

(* ===================================================================== *)
(** ** checker.py                                                         *)
(* ===================================================================== *)

Module Checker.

Local Open Scope io_scope.

(** [similarity_risk_level]; the score is in percent. *)
Definition similarity_risk_level (score : Q) : pystr :=
  if ge score 85 then HIGH_RISK
  else if ge score 70 then MEDIUM_RISK
  else if ge score 50 then MILD_SIMILARITY
  else SAFE.

Section Environment.

(** [fs p] is [None] when [p] is not a directory, and otherwise the
    value of [sorted(Path(p).glob("*.*"))]. *)
Variable fs : pystr -> option (list file).

(** [TfidfVectorizer(lowercase=True, ngram_range=r, stop_words=None)
    .fit_transform(texts)]: the feature matrix, or the library's error. *)
Variable fit_transform : nat * nat -> list pystr -> result matrix.

Variable sqrt : Q -> Q.

(** The built-in [float] on a string: [ValueError] when it does not
    parse. *)
Variable float : pystr -> result Q.

(** The [for f in files] loop of [load_documents], with the two lists it
    appends to. *)
Fixpoint load_loop (files : list file) (texts : list pystr)
         (valid_files : list file) : io (list file * list pystr) :=
  match files with
  | [] => ret (valid_files, texts)
  | f :: rest =>
      let ext := lower (suffix (name f)) in
      let keep (text : pystr) :=
        if truthy (strip text)
        then load_loop rest (texts ++ [text]) (valid_files ++ [f])
        else print (Empty_after_extraction (name f)) ;;
             load_loop rest texts valid_files in
      if pystr_eqb ext (py ".txt") then
        text <- lift (read_text f) ;; keep text
      else if pystr_eqb ext (py ".pdf") then
        pages <- lift (pdf_pages f) ;; keep (pdf_text pages)
      else if pystr_eqb ext (py ".docx") then
        paragraphs <- lift (docx_paragraphs f) ;;
        keep (join newline paragraphs)
      else
        print (Skipping_unsupported (name f)) ;;
        load_loop rest texts valid_files
  end.

Definition load_documents (folder_path : pystr)
  : io (list file * list pystr) :=
  match fs folder_path with
  | None => raise FileNotFoundError
  | Some files =>
      '(valid_files, texts) <- load_loop files [] [] ;;
      match valid_files with
      | [] => raise ValueError
      | _ :: _ => ret (valid_files, texts)
      end
  end.

Definition compute_similarity_matrix (texts : list pystr) : result matrix :=
  bind_result (fit_transform (1, 3)%nat texts) (fun tfidf =>
  Ok (cosine_similarity sqrt tfidf)).

Definition compute_semantic_similarity (texts : list pystr)
  : result matrix :=
  bind_result (fit_transform (1, 5)%nat texts) (fun tfidf =>
  Ok (cosine_similarity sqrt tfidf)).

Definition generate_report (files : list file) (sim_matrix : matrix)
           (threshold : Q) : io unit :=
  (* [files[i].name] is the [i]-th of the names of [files] *)
  results <- lift (pair_results (map name files) sim_matrix) ;;
  match results with
  | [] => print No_pairs_to_compare
  | _ :: _ =>
      let results := sort_desc results in
      '(highest, lowest, avg) <- lift (summarize results) ;;
      print (Summary (length files) (length results) highest lowest avg) ;;
      for_each results (fun r =>
        if ge (score r) (threshold * 100)
        then print (Result_line true r (similarity_risk_level (score r)))
        else ret tt) ;;
      print (Reports_saved
               (map (fun r => (r, similarity_risk_level (score r)))
                    results)) ;;
      print (Highest_match (fst (fst highest)) (snd (fst highest)))
  end.

(** The mode branch of [main]. *)
Definition select_similarity (mode : pystr) (texts : list pystr)
  : io matrix :=
  if pystr_eqb mode (py "2") then
    print Using_enhanced ;; lift (compute_semantic_similarity texts)
  else
    print Using_standard ;; lift (compute_similarity_matrix texts).

(** The [try] block of [main] that reads the threshold. *)
Definition read_threshold : io Q :=
  try_except
    (line <- input ;;
     threshold_val <- lift (float (strip line)) ;;
     ret (threshold_val / 100))
    (print Invalid_threshold ;; ret (1 # 2)).

(** [main] from [load_documents] on, for the mode and threshold read. *)
Definition run (mode : pystr) (threshold : Q) : io unit :=
  '(files, texts) <- load_documents SUBMISSIONS_DIR ;;
  for_each (combine files texts)
           (fun ft => print (Loaded (name (fst ft)) (length (snd ft)))) ;;
  sim_matrix <- select_similarity mode texts ;;
  generate_report files sim_matrix threshold.

Definition main : io unit :=
  print Banner ;;
  line <- input ;;
  let mode := strip line in
  threshold <- read_threshold ;;
  run mode threshold.

End Environment.

End Checker.

(* ===================================================================== *)
(** ** gui_app.py                                                         *)
(* ===================================================================== *)

Module GuiApp.

Local Open Scope io_scope.

Definition similarity_risk_level (score : Q) : pystr :=
  if ge score 85 then HIGH_RISK
  else if ge score 70 then MEDIUM_RISK
  else if ge score 50 then MILD_SIMILARITY
  else SAFE.

Definition plagiarism_badge (score : Q) : pystr :=
  if ge score 90 then py "Plagiarized " ++ [9888%N; 65039%N]
  else if ge score 75 then py "Highly Similar " ++ [128992%N]
  else if ge score 50 then py "Possibly Inspired " ++ [128993%N]
  else py "Likely Original " ++ [9989%N].

Definition extract_text (f : file) : result pystr :=
  let name := lower (name f) in
  if endswith name (py ".txt") then read_text f
  else if endswith name (py ".pdf") then
    bind_result (pdf_pages f) (fun pages => Ok (pdf_text pages))
  else if endswith name (py ".docx") then
    bind_result (docx_paragraphs f) (fun paragraphs =>
    Ok (join newline paragraphs))
  else Ok [].

Definition ENHANCED : pystr := py "Enhanced Semantic-like (Lightweight)".

Section Environment.

Variable fit_transform : nat * nat -> list pystr -> result matrix.

Variable sqrt : Q -> Q.

Definition compute_similarity (texts : list pystr) (enhanced : bool)
  : result matrix :=
  let ngram := if enhanced then (1, 5)%nat else (1, 3)%nat in
  bind_result (fit_transform ngram texts) (fun tfidf =>
  Ok (cosine_similarity sqrt tfidf)).

(** The [for f in uploaded_files] loop, with [texts] and [names]. *)
Fixpoint extract_loop (uploaded_files : list file) (texts names : list pystr)
  : io (list pystr * list pystr) :=
  match uploaded_files with
  | [] => ret (texts, names)
  | f :: rest =>
      text <- lift (extract_text f) ;;
      if truthy (strip text)
      then extract_loop rest (texts ++ [text]) (names ++ [name f])
      else print (Could_not_be_processed (name f)) ;;
           extract_loop rest texts names
  end.

(** The handler of the "Run Similarity Analysis" button, up to the report
    downloads; [mode] is the selected radio label and [threshold] the
    value of the slider. *)
Definition run_similarity_analysis (mode : pystr) (threshold : Z)
           (uploaded_files : list file) : io unit :=
  if (length uploaded_files <? 2)%nat then print Upload_at_least_two
  else
    '(texts, names) <- extract_loop uploaded_files [] [] ;;
    if (length texts <? 2)%nat then print Not_enough_valid
    else
      let enhanced := pystr_eqb mode ENHANCED in
      sim_matrix <- lift (compute_similarity texts enhanced) ;;
      results <- lift (pair_results names sim_matrix) ;;
      let results := sort_desc results in
      '(highest, lowest, avg) <- lift (summarize results) ;;
      print (Summary (length names) (length results) highest lowest avg) ;;
      print (Highest_similarity highest (plagiarism_badge (score highest))) ;;
      for_each results (fun r =>
        print (Result_line (ge (score r) (inject_Z threshold)) r
                           (similarity_risk_level (score r)))) ;;
      print (Reports_saved
               (map (fun r => (r, similarity_risk_level (score r)))
                    results)).

End Environment.

End GuiApp.

(* ===================================================================== *)
(** ** Vocabulary of the properties                                       *)
(* ===================================================================== *)

(** The four-way table, stated once for any function with the text of
    [similarity_risk_level]. *)
Definition risk_table (classify : Q -> pystr) : Prop :=
  forall s : Q,
    (classify s = HIGH_RISK <-> 85 <= s) /\
    (classify s = MEDIUM_RISK <-> 70 <= s /\ s < 85) /\
    (classify s = MILD_SIMILARITY <-> 50 <= s /\ s < 70) /\
    (classify s = SAFE <-> s < 50).

(** Closes a goal whose hypotheses bound one score by two constants in the
    wrong order. *)
Ltac order_Q :=
  match goal with
  | H1 : (?a <= ?s)%Q, H2 : (?s < ?b)%Q |- _ =>
      let H := fresh in
      assert (H : (a < b)%Q) by (eapply Qle_lt_trans; eassumption);
      vm_compute in H; discriminate H
  | H1 : (?s < ?b)%Q, H2 : (?a <= ?s)%Q |- _ =>
      let H := fresh in
      assert (H : (a < b)%Q) by (eapply Qle_lt_trans; eassumption);
      vm_compute in H; discriminate H
  end.

(** Descending order of score: every row is at least as high as all the
    rows after it. *)
Definition sorted_desc (l : list pair_result) : Prop :=
  StronglySorted (fun a b => score b <= score a) l.

(** The rows of [l] whose score is [v], in their order in [l]. *)
Definition with_score (v : Q) (l : list pair_result) : list pair_result :=
  filter (fun r => Qeq_bool (score r) v) l.

(** [l'] keeps rows of equal score in the order they have in [l]. *)
Definition stable (l l' : list pair_result) : Prop :=
  forall v, with_score v l' = with_score v l.

(** The sum of a list of scores, written independently of [sum]. *)
Definition total (xs : list Q) : Q := fold_right Qplus 0 xs.

(** [M] has [n] rows of [n] entries. *)
Definition square (n : nat) (M : matrix) : Prop :=
  length M = n /\ Forall (fun row => length row = n) M.

(** [M[i, j] == M[j, i]] for all indices, out of range included (both sides
    then raise [IndexError]). *)
Definition symmetric (M : matrix) : Prop :=
  forall i j, matrix_get M i j = matrix_get M j i.

(** *** The documents of a folder or upload, one by one *)

(** What [load_documents] extracts from [f]: [None] for an extension other
    than .txt, .pdf and .docx, and otherwise the text or the error of the
    reader chosen by the extension. *)
Definition extracted (f : file) : option (result pystr) :=
  let ext := lower (suffix (name f)) in
  if pystr_eqb ext (py ".txt") then Some (read_text f)
  else if pystr_eqb ext (py ".pdf") then
    Some (bind_result (pdf_pages f) (fun pages => Ok (pdf_text pages)))
  else if pystr_eqb ext (py ".docx") then
    Some (bind_result (docx_paragraphs f) (fun ps => Ok (join newline ps)))
  else None.

(** The text is there and is not blank. *)
Definition valid (f : file) : bool :=
  match extracted f with
  | Some (Ok text) => truthy (strip text)
  | _ => false
  end.

Definition text_of (f : file) : pystr :=
  match extracted f with
  | Some (Ok text) => text
  | _ => []
  end.

(** The warning [load_documents] prints for a document it leaves out. *)
Definition warning_of (f : file) : list event :=
  match extracted f with
  | None => [Skipping_unsupported (name f)]
  | Some (Ok text) =>
      if truthy (strip text) then [] else [Empty_after_extraction (name f)]
  | Some (Raise _) => []
  end.

(** Reading or parsing [f] raises no error. *)
Definition readable (f : file) : Prop :=
  forall e, extracted f <> Some (Raise e).

(** The same for the upload loop of the GUI, where [extract_text] answers
    the empty string for any other extension. *)
Definition gui_valid (f : file) : bool :=
  match GuiApp.extract_text f with
  | Ok text => truthy (strip text)
  | Raise _ => false
  end.

Definition gui_text_of (f : file) : pystr :=
  match GuiApp.extract_text f with
  | Ok text => text
  | Raise _ => []
  end.

Definition gui_warning_of (f : file) : list event :=
  if gui_valid f then [] else [Could_not_be_processed (name f)].

Definition gui_readable (f : file) : Prop :=
  forall e, GuiApp.extract_text f <> Raise e.

(** The console after more output. *)
Definition printed (w : world) (events : list event) : world :=
  {| stdin := stdin w; stdout := stdout w ++ events |}.

(* ===================================================================== *)
(** ** Sample environment, to run the definitions on concrete inputs      *)
(* ===================================================================== *)

(** A stand-in vectorizer: one row per text, holding the length of the text
    and the bounds of the n-gram range. *)
Definition length_vectorizer (ngram : nat * nat) (texts : list pystr)
  : result matrix :=
  Ok (map (fun t => [inject_Z (Z.of_nat (length t));
                     inject_Z (Z.of_nat (fst ngram));
                     inject_Z (Z.of_nat (snd ngram))]) texts).

(** A stand-in square root: the integer square root of the integer part. *)
Definition floor_sqrt (x : Q) : Q := inject_Z (Z.sqrt (Qfloor x)).

(** A stand-in vectorizer with the empty-vocabulary error of
    [TfidfVectorizer]: with the default token pattern a token is a run of two
    or more word characters, and [fit_transform] raises [ValueError] when no
    text has one.  Word characters are taken among ASCII here. *)
Definition is_word_char (c : char) : bool :=
  (((48 <=? c) && (c <=? 57)) || ((65 <=? c) && (c <=? 90))
   || (c =? 95) || ((97 <=? c) && (c <=? 122)))%N.

Fixpoint has_token (s : pystr) : bool :=
  match s with
  | [] => false
  | c :: t =>
      match t with
      | [] => false
      | d :: _ => (is_word_char c && is_word_char d) || has_token t
      end
  end.

Definition vocabulary_vectorizer (ngram : nat * nat) (texts : list pystr)
  : result matrix :=
  if existsb has_token texts then length_vectorizer ngram texts
  else Raise ValueError.

(** A stand-in [float]: non-empty strings of ASCII digits only. *)
Fixpoint digits_value (s : pystr) (acc : Z) : result Q :=
  match s with
  | [] => Ok (inject_Z acc)
  | c :: t =>
      if ((48 <=? c) && (c <=? 57))%N
      then digits_value t (acc * 10 + Z.of_N (c - 48))
      else Raise ValueError
  end.

Definition digits_float (s : pystr) : result Q :=
  match s with
  | [] => Raise ValueError
  | _ :: _ => digits_value s 0
  end.

Definition text_file (n text : pystr) : file :=
  {| name := n; read_text := Ok text;
     pdf_pages := Raise PdfReadError;
     docx_paragraphs := Raise PackageNotFoundError |}.

(** A file named as a PDF that PyPDF2 cannot parse. *)
Definition corrupt_pdf (n : pystr) : file :=
  {| name := n; read_text := Ok (py "%PDF-");
     pdf_pages := Raise PdfReadError;
     docx_paragraphs := Raise PackageNotFoundError |}.

Definition essay_a : file := text_file (py "a.txt") (py "the cat sat").
Definition essay_b : file := text_file (py "b.txt") (py "the cat sat down").
Definition essay_c : file := text_file (py "c.TXT") (py "a dog ran").
Definition blank_d : file := text_file (py "d.txt") (py "  ").
Definition image_e : file := text_file (py "e.png") (py "PNG").

Definition sample_folder : list file := [essay_a; blank_d; image_e; essay_b].

Definition folder_with (files : list file) (p : pystr) : option (list file) :=
  if pystr_eqb p SUBMISSIONS_DIR then Some files else None.

Definition sample_names : list pystr := [py "a.txt"; py "b.txt"; py "c.txt"].

Definition sample_matrix : matrix :=
  [[1; 1 # 2; 0]; [1 # 2; 1; 1 # 4]; [0; 1 # 4; 1]].

(** The double next above 1, that is 1.0000000000000002: a value that the
    rounded normalisation and dot product give for identical rows. *)
Definition one_plus_ulp : Q := 1 + (1 # 4503599627370496).

(** A similarity matrix of two identical documents with that value. *)
Definition duplicate_matrix : matrix :=
  [[one_plus_ulp; one_plus_ulp]; [one_plus_ulp; one_plus_ulp]].

Definition console (lines : list pystr) : world :=
  {| stdin := lines; stdout := [] |}.

(** Proves [Forall readable l] or [Forall gui_readable l] for a list of
    the sample files. *)
Ltac readable_by_computation :=
  repeat constructor; intros e H; vm_compute in H; discriminate H.

(* ===================================================================== *)
(** ** gui_app.py: the report writers                                     *)
(* ===================================================================== *)

(** One row of the worksheet of [create_excel_report]; the score stays a
    number, its rendering as "NN.NN%" is left to the reader. *)
Inductive excel_row : Type :=
| Header_row
    (* ["File 1", "File 2", "Similarity (%)", "Risk Level"] *)
| Data_row (f1 f2 : pystr) (score : Q) (risk : pystr).

(** [create_excel_report]: the rows appended to the sheet. *)
Definition create_excel_report (results : list pair_result)
  : list excel_row :=
  Header_row
  :: map (fun r => Data_row (fst (fst r)) (snd (fst r)) (score r)
                            (GuiApp.similarity_risk_level (score r)))
         results.

Inductive font : Type := Helvetica | Helvetica_Bold.

(** The texts [create_pdf_report] draws. *)
Inductive pdf_line : Type :=
| Title_line                       (* "Document Similarity Report" *)
| Total_documents_line (n : nat)
| Total_comparisons_line (n : nat)
| Highest_line (r : pair_result)
| Lowest_line (r : pair_result)
| Average_line (avg : Q)
| Sorted_results_line              (* "Sorted Results:" *)
| Row_line (r : pair_result) (risk : pystr)
| Truncated_line.                  (* "... (truncated additional rows)" *)

(** The calls made on the reportlab canvas, in order. *)
Inductive canvas_op : Type :=
| SetFont (f : font) (size : nat)
| DrawString (x y : Q) (line : pdf_line)
| ShowPage
| Save.

Definition x_margin : Q := 40.

Definition max_rows : nat := 80.

(** [y < 60] *)
Definition below_margin (y : Q) : bool := negb (Qle_bool 60 y).

Section PdfReport.

(** The height of the page, the second component of reportlab's [A4]. *)
Variable height : Q.

(** The [for f1, f2, score in results] loop of [create_pdf_report], from
    the vertical position [y] and the number [count] of rows drawn; the
    [break] ends the recursion. *)
Fixpoint draw_rows (results : list pair_result) (y : Q) (count : nat)
  : list canvas_op :=
  match results with
  | [] => []
  | r :: rest =>
      let line := Row_line r (GuiApp.similarity_risk_level (score r)) in
      let page := if below_margin y then [ShowPage; SetFont Helvetica 10]
                  else [] in
      let y := if below_margin y then height - 50 else y in
      let count := S count in
      page ++ DrawString x_margin y line
           :: (if (max_rows <=? count)%nat
               then [DrawString x_margin (y - 12) Truncated_line]
               else draw_rows rest (y - 12) count)
  end.

Definition create_pdf_report (results : list pair_result)
           (highest lowest : pair_result) (avg : Q)
           (num_docs num_comparisons : nat) : list canvas_op :=
  let y := height - 50 in
  [SetFont Helvetica_Bold 16; DrawString x_margin y Title_line;
   SetFont Helvetica 11;
   DrawString x_margin (y - 30) (Total_documents_line num_docs);
   DrawString x_margin (y - 30 - 15) (Total_comparisons_line num_comparisons);
   DrawString x_margin (y - 30 - 15 - 15) (Highest_line highest);
   DrawString x_margin (y - 30 - 15 - 15 - 15) (Lowest_line lowest);
   DrawString x_margin (y - 30 - 15 - 15 - 15 - 15) (Average_line avg);
   SetFont Helvetica_Bold 12;
   DrawString x_margin (y - 30 - 15 - 15 - 15 - 15 - 25) Sorted_results_line;
   SetFont Helvetica 10]
  ++ draw_rows results (y - 30 - 15 - 15 - 15 - 15 - 25 - 20) 0
  ++ [ShowPage; Save].

End PdfReport.

(** The height of A4 in points: 297 mm at 72 points per inch. *)
Definition A4_height : Q := 297 * (72 / (254 # 10)).

(** The detail rows of a drawing, with their vertical positions. *)
Definition drawn_rows (ops : list canvas_op)
  : list (Q * pair_result * pystr) :=
  flat_map (fun op =>
              match op with
              | DrawString _ y (Row_line r risk) => [(y, r, risk)]
              | _ => []
              end) ops.

(** The drawing contains the truncation notice. *)
Definition truncation_notice (ops : list canvas_op) : bool :=
  existsb (fun op =>
             match op with
             | DrawString _ _ Truncated_line => true
             | _ => false
             end) ops.

(** The worksheet row with the content of a detail row of the PDF. *)
Definition excel_of_drawn (x : Q * pair_result * pystr) : excel_row :=
  let r := snd (fst x) in
  Data_row (fst (fst r)) (snd (fst r)) (score r) (snd x).

(* ===================================================================== *)
(** ** Further vocabulary                                                 *)
(* ===================================================================== *)

Definition PLAGIARIZED : pystr := py "Plagiarized " ++ [9888%N; 65039%N].
Definition HIGHLY_SIMILAR : pystr := py "Highly Similar " ++ [128992%N].
Definition POSSIBLY_INSPIRED : pystr := py "Possibly Inspired " ++ [128993%N].
Definition LIKELY_ORIGINAL : pystr := py "Likely Original " ++ [9989%N].

(** The severity of a risk label, SAFE lowest. *)
Definition risk_rank (label : pystr) : nat :=
  if pystr_eqb label HIGH_RISK then 3
  else if pystr_eqb label MEDIUM_RISK then 2
  else if pystr_eqb label MILD_SIMILARITY then 1
  else 0.

(** A text has a character that is not whitespace. *)
Definition has_visible_char (text : pystr) : bool :=
  existsb (fun c => negb (is_space c)) text.

(** Lexicographic order on index pairs. *)
Definition lex_lt (a b : nat * nat) : Prop :=
  (fst a < fst b)%nat \/ (fst a = fst b /\ (snd a < snd b)%nat).



(** The line of the GUI for one result and the slider value. *)
Definition gui_line (threshold : Z) (r : pair_result) : event :=
  Result_line (ge (score r) (inject_Z threshold)) r
              (GuiApp.similarity_risk_level (score r)).

(* ===================================================================== *)
(** * Properties                                                          *)
(* ===================================================================== *)

Example suffix_txt : suffix (py "Essay.TXT") = py ".TXT".
Proof. reflexivity. Qed.

Example suffix_hidden : suffix (py ".bashrc") = [].
Proof. reflexivity. Qed.

Example suffix_trailing_dot : suffix (py "notes.") = [].
Proof. reflexivity. Qed.

Example strip_blank : strip (py "  ") = [].
Proof. reflexivity. Qed.

Example endswith_pdf : endswith (lower (py "A.PDF")) (py ".pdf") = true.
Proof. reflexivity. Qed.

(* ===================================================================== *)
(** ** Risk classification                                                *)
(* ===================================================================== *)

Lemma ge_true (x y : Q) : ge x y = true <-> y <= x.
Proof. unfold ge. apply Qle_bool_iff. Qed.

Lemma ge_false (x y : Q) : ge x y = false <-> x < y.
Proof.
  unfold ge. split; intros H.
  - apply Qnot_le_lt. intros Hle. apply Qle_bool_iff in Hle. congruence.
  - destruct (Qle_bool y x) eqn:E; [|reflexivity].
    apply Qle_bool_iff in E. exfalso. exact (Qlt_not_le _ _ H E).
Qed.

Lemma labels_distinct :
  HIGH_RISK <> MEDIUM_RISK /\ HIGH_RISK <> MILD_SIMILARITY /\
  HIGH_RISK <> SAFE /\ MEDIUM_RISK <> MILD_SIMILARITY /\
  MEDIUM_RISK <> SAFE /\ MILD_SIMILARITY <> SAFE.
Proof. repeat split; intro H; vm_compute in H; discriminate H. Qed.

Lemma risk_table_checker : risk_table Checker.similarity_risk_level.
Proof.
  destruct labels_distinct as (D1 & D2 & D3 & D4 & D5 & D6).
  intros s. unfold Checker.similarity_risk_level.
  destruct (ge s 85) eqn:E85;
    [apply ge_true in E85 | apply ge_false in E85];
  [| destruct (ge s 70) eqn:E70;
     [apply ge_true in E70 | apply ge_false in E70];
   [| destruct (ge s 50) eqn:E50;
      [apply ge_true in E50 | apply ge_false in E50]]];
  repeat split; intros; try tauto; try congruence;
    try (exfalso; repeat match goal with H : _ /\ _ |- _ => destruct H end;
         order_Q).
Qed.

Lemma risk_table_gui : risk_table GuiApp.similarity_risk_level.
Proof. exact risk_table_checker. Qed.

(** C3.  Both copies of [similarity_risk_level] return HIGH RISK exactly for
    scores of at least 85, MEDIUM RISK exactly for scores in [70, 85), MILD
    SIMILARITY exactly for scores in [50, 70) and SAFE exactly for scores
    below 50, for every score (in particular for those between 0 and 100);
    the boundary scores 85, 70 and 50 get the label of the higher-risk
    bucket. *)
Theorem similarity_risk_level_thresholds :
  risk_table Checker.similarity_risk_level /\
  risk_table GuiApp.similarity_risk_level /\
  (Checker.similarity_risk_level 85 = HIGH_RISK /\
   Checker.similarity_risk_level 70 = MEDIUM_RISK /\
   Checker.similarity_risk_level 50 = MILD_SIMILARITY) /\
  (GuiApp.similarity_risk_level 85 = HIGH_RISK /\
   GuiApp.similarity_risk_level 70 = MEDIUM_RISK /\
   GuiApp.similarity_risk_level 50 = MILD_SIMILARITY).
Proof.
  split; [exact risk_table_checker|].
  split; [exact risk_table_gui|].
  repeat split; reflexivity.
Qed.

Lemma similarity_risk_level_thresholds_witness :
  Checker.similarity_risk_level 84 = MEDIUM_RISK /\
  GuiApp.similarity_risk_level 49 = SAFE.
Proof.
  destruct similarity_risk_level_thresholds as (T1 & T2 & _).
  split.
  - apply (proj1 (proj2 (T1 84))). split; vm_compute; [discriminate|reflexivity].
  - apply (proj2 (proj2 (proj2 (T2 49)))). reflexivity.
Defined.

(* ===================================================================== *)
(** ** Sorting for the report                                             *)
(* ===================================================================== *)

Lemma Qle_bool_false (x y : Q) : Qle_bool x y = false -> y < x.
Proof.
  intros H. apply Qnot_le_lt. intros Hle.
  apply Qle_bool_iff in Hle. congruence.
Qed.

Lemma insert_desc_perm (x : pair_result) (l : list pair_result) :
  Permutation (x :: l) (insert_desc x l).
Proof.
  induction l as [|y rest IH]; simpl.
  - apply Permutation_refl.
  - destruct (Qle_bool (score y) (score x)).
    + apply Permutation_refl.
    + eapply perm_trans; [apply perm_swap|]. apply perm_skip. exact IH.
Qed.

Lemma sort_desc_perm (l : list pair_result) : Permutation l (sort_desc l).
Proof.
  induction l as [|x l IH]; simpl.
  - apply perm_nil.
  - eapply perm_trans; [apply perm_skip; exact IH|]. apply insert_desc_perm.
Qed.

Lemma insert_desc_sorted (x : pair_result) (l : list pair_result) :
  sorted_desc l -> sorted_desc (insert_desc x l).
Proof.
  unfold sorted_desc. induction l as [|y rest IH]; simpl; intros Hs.
  - constructor; constructor.
  - inversion Hs as [|? ? Hrest Hall]; subst.
    destruct (Qle_bool (score y) (score x)) eqn:E.
    + apply Qle_bool_iff in E. constructor; [exact Hs|].
      constructor; [exact E|].
      eapply Forall_impl; [|exact Hall].
      intros z Hz. simpl in Hz. eapply Qle_trans; eassumption.
    + apply Qle_bool_false in E. constructor; [apply IH; exact Hrest|].
      apply (Permutation_Forall (insert_desc_perm x rest)).
      constructor; [apply Qlt_le_weak; exact E | exact Hall].
Qed.

Lemma sort_desc_sorted (l : list pair_result) : sorted_desc (sort_desc l).
Proof.
  induction l as [|x l IH]; simpl.
  - constructor.
  - apply insert_desc_sorted. exact IH.
Qed.

Lemma insert_desc_with_score (v : Q) (x : pair_result)
      (l : list pair_result) :
  with_score v (insert_desc x l) = with_score v (x :: l).
Proof.
  unfold with_score. induction l as [|y rest IH]; simpl.
  - reflexivity.
  - destruct (Qle_bool (score y) (score x)) eqn:E; [reflexivity|].
    apply Qle_bool_false in E. simpl. rewrite IH. simpl.
    destruct (Qeq_bool (score y) v) eqn:Ey; [|reflexivity].
    destruct (Qeq_bool (score x) v) eqn:Ex; [|reflexivity].
    apply Qeq_bool_iff in Ey. apply Qeq_bool_iff in Ex.
    exfalso. rewrite Ex, Ey in E. exact (Qlt_irrefl _ E).
Qed.

Lemma sort_desc_stable (l : list pair_result) : stable l (sort_desc l).
Proof.
  intros v. induction l as [|x l IH]; simpl.
  - reflexivity.
  - rewrite insert_desc_with_score. unfold with_score in *. simpl.
    rewrite IH. reflexivity.
Qed.

Lemma with_score_self (a : pair_result) (l : list pair_result) :
  with_score (score a) (a :: l) = a :: with_score (score a) l.
Proof.
  unfold with_score. simpl.
  destruct (Qeq_bool (score a) (score a)) eqn:E; [reflexivity|].
  exfalso. apply Qeq_bool_neq in E. apply E. reflexivity.
Qed.

Lemma with_score_In (v : Q) (r : pair_result) (l : list pair_result) :
  In r (with_score v l) -> In r l.
Proof. unfold with_score. intros H. apply filter_In in H. tauto. Qed.

(** Two descending lists with the same rows of each score, in the same
    order, are the same list. *)
Lemma sorted_stable_unique (l1 : list pair_result) :
  forall l2,
    sorted_desc l1 -> sorted_desc l2 ->
    (forall v, with_score v l1 = with_score v l2) -> l1 = l2.
Proof.
  induction l1 as [|a t1 IH]; intros l2 S1 S2 Heq.
  - destruct l2 as [|b t2]; [reflexivity|].
    specialize (Heq (score b)). rewrite with_score_self in Heq.
    discriminate Heq.
  - destruct l2 as [|b t2].
    + specialize (Heq (score a)). rewrite with_score_self in Heq.
      discriminate Heq.
    + inversion S1 as [|? ? S1' A1]; subst.
      inversion S2 as [|? ? S2' A2]; subst.
      assert (Hab : a = b).
      { pose proof (Heq (score a)) as Ha. rewrite with_score_self in Ha.
        pose proof (Heq (score b)) as Hb. rewrite with_score_self in Hb.
        unfold with_score in Ha at 2. simpl in Ha.
        destruct (Qeq_bool (score b) (score a)) eqn:E.
        - injection Ha as Ha _. exact Ha.
        - exfalso.
          assert (Ia : In a t2).
          { apply (with_score_In (score a)). unfold with_score.
            rewrite <- Ha. left. reflexivity. }
          unfold with_score in Hb at 1. simpl in Hb.
          destruct (Qeq_bool (score a) (score b)) eqn:E'.
          + apply Qeq_bool_iff in E'. apply Qeq_bool_neq in E.
            apply E. symmetry. exact E'.
          + assert (Ib : In b t1).
            { apply (with_score_In (score b)). unfold with_score.
              rewrite Hb. left. reflexivity. }
            rewrite Forall_forall in A1, A2.
            apply A1 in Ib. apply A2 in Ia.
            apply Qeq_bool_neq in E. apply E.
            apply Qle_antisym; assumption. }
      subst b. f_equal. apply IH; [exact S1' | exact S2' |].
      intros v. specialize (Heq v). unfold with_score in *. simpl in Heq.
      destruct (Qeq_bool (score a) v).
      * injection Heq as Heq. exact Heq.
      * exact Heq.
Qed.

Lemma sort_desc_unique (l l' : list pair_result) :
  sorted_desc l' -> stable l l' -> l' = sort_desc l.
Proof.
  intros S St. apply sorted_stable_unique.
  - exact S.
  - apply sort_desc_sorted.
  - intros v. rewrite St. symmetry. apply sort_desc_stable.
Qed.

(** C4.  The report sort returns a rearrangement of the rows that is in
    descending order of score and keeps rows of equal score in their order
    of enumeration; the result is the only list with these two properties,
    so the output is determined by the input order.  For the scores
    30, 90, 90, 10 the two 90s come first, in their original order, then 30,
    then 10. *)
Theorem sort_desc_stable_descending :
  (forall l : list pair_result,
      Permutation l (sort_desc l) /\
      sorted_desc (sort_desc l) /\
      stable l (sort_desc l) /\
      (forall l', sorted_desc l' -> stable l l' -> l' = sort_desc l)) /\
  (forall a b c d e f g h : pystr,
      sort_desc [(a, b, 30); (c, d, 90); (e, f, 90); (g, h, 10)]
      = [(c, d, 90); (e, f, 90); (a, b, 30); (g, h, 10)]).
Proof.
  split.
  - intros l. split; [apply sort_desc_perm|].
    split; [apply sort_desc_sorted|].
    split; [apply sort_desc_stable|].
    intros l'. apply sort_desc_unique.
  - intros. reflexivity.
Qed.

Lemma sort_desc_stable_descending_witness :
  [([], [], 90); ([], [], 30)] = sort_desc [([], [], 90); ([], [], 30)].
Proof.
  apply (proj1 sort_desc_stable_descending).
  - repeat constructor; vm_compute; discriminate.
  - intros v. reflexivity.
Defined.

(* ===================================================================== *)
(** ** Aggregation                                                        *)
(* ===================================================================== *)

Lemma fold_left_Qplus (xs : list Q) (a : Q) :
  fold_left Qplus xs a == a + total xs.
Proof.
  revert a. induction xs as [|x xs IH]; intros a; simpl.
  - rewrite Qplus_0_r. reflexivity.
  - rewrite IH. rewrite Qplus_assoc. reflexivity.
Qed.

Lemma sum_total (xs : list Q) : sum xs == total xs.
Proof. unfold sum. rewrite fold_left_Qplus. apply Qplus_0_l. Qed.

Lemma sorted_desc_last (l : list pair_result) (z : pair_result) :
  sorted_desc (l ++ [z]) -> Forall (fun r => score z <= score r) l.
Proof.
  unfold sorted_desc. induction l as [|a l IH]; simpl; intros Hs.
  - constructor.
  - inversion Hs as [|? ? Hs' Hall]; subst. constructor.
    + rewrite Forall_forall in Hall. apply Hall.
      apply in_or_app. right. left. reflexivity.
    + apply IH. exact Hs'.
Qed.

Lemma index_last_app {A} (l : list A) (z : A) : index_last (l ++ [z]) = Ok z.
Proof. unfold index_last. rewrite rev_app_distr. reflexivity. Qed.

Lemma nonempty_last {A} (l : list A) :
  l <> [] -> exists front z, l = front ++ [z].
Proof.
  intros H. destruct (exists_last H) as (front & z & E).
  exists front, z. exact E.
Qed.

Lemma summarize_cons_snoc (h z : pair_result)
      (back front : list pair_result) :
  h :: back = front ++ [z] ->
  summarize (h :: back)
  = Ok (h, z, sum (map score (h :: back))
              / inject_Z (Z.of_nat (length (h :: back)))).
Proof.
  intros E. unfold summarize.
  assert (L : index_last (h :: back) = Ok z)
    by (rewrite E; apply index_last_app).
  rewrite L. reflexivity.
Qed.

(** C5.  On a non-empty list of rows in descending order of score, the
    aggregator returns as highest the first row, whose score is the
    maximum, as lowest the last row, whose score is the minimum, and as
    average the sum of the scores divided by their number.  For rows with
    the scores 20, 60 and 100, sorted for the report, the average is 60,
    the highest score 100 and the lowest 20. *)
Theorem summarize_sorted :
  (forall results : list pair_result,
      results <> [] -> sorted_desc results ->
      exists highest lowest avg front back,
        summarize results = Ok (highest, lowest, avg) /\
        results = highest :: back /\
        results = front ++ [lowest] /\
        (forall r, In r results ->
                   score r <= score highest /\ score lowest <= score r) /\
        avg * inject_Z (Z.of_nat (length results))
        == total (map score results)) /\
  (forall a b c d e f : pystr,
      exists avg,
        summarize (sort_desc [(a, b, 20); (c, d, 60); (e, f, 100)])
        = Ok ((e, f, 100), (a, b, 20), avg) /\ avg == 60).
Proof.
  split.
  - intros results Hne Hs.
    destruct (nonempty_last Hne) as (front & lowest & Elast).
    destruct results as [|highest back]; [contradiction|].
    exists highest, lowest,
      (sum (map score (highest :: back))
       / inject_Z (Z.of_nat (length (highest :: back)))),
      front, back.
    split.
    { apply summarize_cons_snoc with (front := front). exact Elast. }
    split; [reflexivity|]. split; [exact Elast|]. split.
    + intros r Hr. split.
      * destruct Hr as [Hr|Hr]; [subst; apply Qle_refl|].
        inversion Hs as [|? ? _ Hall]; subst.
        rewrite Forall_forall in Hall. apply Hall. exact Hr.
      * rewrite Elast in Hs, Hr. apply sorted_desc_last in Hs.
        apply in_app_or in Hr. destruct Hr as [Hr|[Hr|[]]].
        -- rewrite Forall_forall in Hs. apply Hs. exact Hr.
        -- subst. apply Qle_refl.
    + rewrite sum_total. unfold Qdiv.
      rewrite <- Qmult_assoc. rewrite (Qmult_comm (/ _)).
      rewrite Qmult_inv_r; [apply Qmult_1_r|].
      intros H. unfold Qeq in H. simpl in H. lia.
  - intros. eexists. split; [reflexivity|]. reflexivity.
Qed.

Lemma summarize_sorted_witness :
  exists highest lowest avg front back,
    summarize [([], [], 100); ([], [], 60); ([], [], 20)]
    = Ok (highest, lowest, avg) /\
    [([], [], 100); ([], [], 60); ([], [], 20)] = highest :: back /\
    [([], [], 100); ([], [], 60); ([], [], 20)] = front ++ [lowest] /\
    (forall r, In r [([], [], 100); ([], [], 60); ([], [], 20)] ->
               score r <= score highest /\ score lowest <= score r) /\
    avg * inject_Z (Z.of_nat 3)
    == total (map score [([], [], 100); ([], [], 60); ([], [], 20)]).
Proof.
  apply (proj1 summarize_sorted).
  - discriminate.
  - repeat constructor; vm_compute; discriminate.
Defined.

(* ===================================================================== *)
(** ** Flattening the matrix into pair results                            *)
(* ===================================================================== *)

Lemma In_range (a b x : nat) : In x (range a b) <-> (a <= x < b)%nat.
Proof. unfold range. rewrite in_seq. lia. Qed.

Lemma In_pairs_from (n a len i j : nat) :
  In (i, j)
     (flat_map (fun i => map (fun j => (i, j)) (range (i + 1) n)) (seq a len))
  <-> (a <= i < a + len /\ i < j < n)%nat.
Proof.
  rewrite in_flat_map. split.
  - intros (x & Hx & Hin). apply in_seq in Hx.
    apply in_map_iff in Hin. destruct Hin as (y & Heq & Hy).
    injection Heq as -> ->. apply In_range in Hy. lia.
  - intros (Hi & Hj). exists i. split; [apply in_seq; lia|].
    apply in_map_iff. exists j. split; [reflexivity|].
    apply In_range. lia.
Qed.

Lemma In_index_pairs (n i j : nat) :
  In (i, j) (index_pairs n) <-> (i < j < n)%nat.
Proof.
  unfold index_pairs, range at 2. rewrite In_pairs_from. lia.
Qed.

Lemma NoDup_pairs_from (n len a : nat) :
  NoDup (flat_map (fun i => map (fun j => (i, j)) (range (i + 1) n))
                  (seq a len)).
Proof.
  revert a. induction len as [|len IH]; intros a; simpl.
  - constructor.
  - apply NoDup_app.
    + apply NoDup_map_NoDup_ForallPairs.
      * intros x y _ _ H. injection H as H. exact H.
      * unfold range. apply seq_NoDup.
    + apply IH.
    + intros [i j] H1 H2. apply in_map_iff in H1.
      destruct H1 as (y & Heq & _). injection Heq as <- _.
      apply In_pairs_from in H2. lia.
Qed.

Lemma NoDup_index_pairs (n : nat) : NoDup (index_pairs n).
Proof. apply NoDup_pairs_from. Qed.

Lemma length_pairs_from (n len a : nat) :
  (a + len = n)%nat ->
  (2 * length (flat_map (fun i => map (fun j => (i, j)) (range (i + 1) n))
                        (seq a len))
   = len * (len - 1))%nat.
Proof.
  revert a. induction len as [|len IH]; intros a Hn; simpl flat_map.
  - reflexivity.
  - rewrite length_app, length_map. unfold range at 1. rewrite length_seq.
    specialize (IH (S a)). replace (n - (a + 1))%nat with len by lia.
    assert (H : (S a + len = n)%nat) by lia. apply IH in H. nia.
Qed.

Lemma length_index_pairs (n : nat) :
  length (index_pairs n) = (n * (n - 1) / 2)%nat.
Proof.
  pose proof (@length_pairs_from n n 0%nat eq_refl) as H.
  unfold index_pairs, range at 2. rewrite Nat.sub_0_r.
  apply Nat.div_unique_exact; [discriminate|].
  symmetry. exact H.
Qed.

Lemma mapM_Forall2 {A B} (f : A -> result B) (l : list A) :
  (forall a, In a l -> exists b, f a = Ok b) ->
  exists bs, mapM f l = Ok bs /\ Forall2 (fun a b => f a = Ok b) l bs.
Proof.
  induction l as [|a l IH]; intros H; simpl.
  - exists []. split; [reflexivity | constructor].
  - destruct (H a (or_introl eq_refl)) as (b & Hb).
    destruct IH as (bs & Hbs & Hall).
    { intros x Hx. apply H. right. exact Hx. }
    exists (b :: bs). rewrite Hb, Hbs. split; [reflexivity|].
    constructor; assumption.
Qed.

Lemma index_lt {A} (l : list A) (i : nat) :
  (i < length l)%nat -> exists a, index l i = Ok a /\ In a l.
Proof.
  intros H. unfold index. destruct (nth_error l i) as [a|] eqn:E.
  - exists a. split; [reflexivity|]. eapply nth_error_In. exact E.
  - apply nth_error_None in E. lia.
Qed.

Lemma matrix_get_square (n : nat) (M : matrix) (i j : nat) :
  square n M -> (i < n)%nat -> (j < n)%nat ->
  exists m row, matrix_get M i j = Ok m /\ In row M /\ In m row.
Proof.
  intros (Hlen & Hrows) Hi Hj. unfold matrix_get.
  destruct (@index_lt _ M i) as (row & Hrow & Hin); [lia|].
  rewrite Forall_forall in Hrows. pose proof (Hrows row Hin) as Hl.
  destruct (@index_lt _ row j) as (m & Hm & Hin'); [lia|].
  exists m, row. rewrite Hrow. simpl. auto.
Qed.

Lemma index_In {A} (l : list A) (i : nat) (a : A) :
  index l i = Ok a -> In a l.
Proof.
  unfold index. destruct (nth_error l i) eqn:E; intros H; [|discriminate].
  injection H as <-. eapply nth_error_In. exact E.
Qed.

Lemma pair_result_at_inv (names : list pystr) (M : matrix)
      (ij : nat * nat) (r : pair_result) :
  pair_result_at names M ij = Ok r ->
  exists m ni nj row,
    matrix_get M (fst ij) (snd ij) = Ok m /\
    In row M /\ In m row /\
    index names (fst ij) = Ok ni /\ index names (snd ij) = Ok nj /\
    r = (ni, nj, m * 100).
Proof.
  destruct ij as [i j]. unfold pair_result_at, matrix_get. simpl.
  destruct (index M i) as [row|] eqn:Er; simpl; [|discriminate].
  destruct (index row j) as [m|] eqn:Em; simpl; [|discriminate].
  destruct (index names i) as [ni|]; simpl; [|discriminate].
  destruct (index names j) as [nj|]; simpl; [|discriminate].
  intros H. injection H as <-. exists m, ni, nj, row.
  repeat split; eauto using index_In.
Qed.

Lemma pair_result_at_square (names : list pystr) (M : matrix) (i j : nat) :
  square (length names) M -> (i < j < length names)%nat ->
  exists r, pair_result_at names M (i, j) = Ok r.
Proof.
  intros Hsq Hij. unfold pair_result_at.
  destruct (@matrix_get_square _ M i j Hsq) as (m & _ & Hm & _); [lia..|].
  destruct (@index_lt _ names i) as (ni & Hni & _); [lia|].
  destruct (@index_lt _ names j) as (nj & Hnj & _); [lia|].
  rewrite Hm, Hni, Hnj. simpl. eauto.
Qed.

(** C2, as stated, fails: nothing clamps the scores.  For two documents and
    a square, symmetric matrix whose entries are the double next above 1,
    the flattening step returns one row, and its score is above 100. *)
Lemma duplicate_documents_score_above_100 :
  square 2 duplicate_matrix /\
  pair_results [py "a.txt"; py "b.txt"] duplicate_matrix
  = Ok [(py "a.txt", py "b.txt", one_plus_ulp * 100)] /\
  ~ score (py "a.txt", py "b.txt", one_plus_ulp * 100) <= 100.
Proof.
  split; [split; [reflexivity | repeat constructor]|].
  split; [reflexivity|].
  intros H. vm_compute in H. apply H. reflexivity.
Qed.

(** C2, amended.  For [n] names and an [n] by [n] similarity matrix [M],
    the flattening step returns exactly [n (n - 1) / 2] rows, one for each
    pair of the enumeration; the enumeration lists every pair [(i, j)] with
    [i < j < n] and no other, each once; the row of [(i, j)] is
    [(names[i], names[j], M[i, j] * 100)].  Its score lies between 0 and 100
    when the entry [M[i, j]] lies between 0 and 1, and is above 100 when the
    entry is above 1.  [checker.generate_report] runs this step on the names
    of its files, [gui_app] on [names]. *)
Theorem pair_results_flatten :
  forall (names : list pystr) (M : matrix),
    square (length names) M ->
    exists results,
      pair_results names M = Ok results /\
      length results = (length names * (length names - 1) / 2)%nat /\
      NoDup (index_pairs (length names)) /\
      (forall i j, In (i, j) (index_pairs (length names))
                   <-> (i < j < length names)%nat) /\
      Forall2 (fun ij r =>
                 exists m ni nj,
                   matrix_get M (fst ij) (snd ij) = Ok m /\
                   index names (fst ij) = Ok ni /\
                   index names (snd ij) = Ok nj /\
                   r = (ni, nj, m * 100) /\
                   (0 <= m /\ m <= 1 -> 0 <= score r /\ score r <= 100) /\
                   (1 < m -> 100 < score r))
              (index_pairs (length names)) results.
Proof.
  intros names M Hsq. unfold pair_results.
  destruct (@mapM_Forall2 _ _ (pair_result_at names M)
                          (index_pairs (length names)))
    as (results & Hres & Hall).
  { intros [i j] Hin. apply In_index_pairs in Hin.
    apply pair_result_at_square; assumption. }
  exists results. split; [exact Hres|].
  split.
  { rewrite <- (Forall2_length Hall). apply length_index_pairs. }
  split; [apply NoDup_index_pairs|].
  split; [intros i j; apply In_index_pairs|].
  eapply Forall2_impl; [|exact Hall].
  intros ij r H. apply pair_result_at_inv in H.
  destruct H as (m & ni & nj & row & H1 & _ & _ & H2 & H3 & ->).
  exists m, ni, nj. repeat split; try assumption; unfold score; simpl; lra.
Qed.

Lemma pair_results_flatten_witness :
  exists results,
    pair_results sample_names sample_matrix = Ok results /\
    length results = 3%nat /\
    NoDup (index_pairs 3) /\
    (forall i j, In (i, j) (index_pairs 3) <-> (i < j < 3)%nat) /\
    Forall2 (fun ij r =>
               exists m ni nj,
                 matrix_get sample_matrix (fst ij) (snd ij) = Ok m /\
                 index sample_names (fst ij) = Ok ni /\
                 index sample_names (snd ij) = Ok nj /\
                 r = (ni, nj, m * 100) /\
                 (0 <= m /\ m <= 1 -> 0 <= score r /\ score r <= 100) /\
                 (1 < m -> 100 < score r))
            (index_pairs 3) results.
Proof.
  apply (@pair_results_flatten sample_names sample_matrix).
  split; [reflexivity|]. repeat constructor.
Defined.

Example pair_results_sample :
  pair_results sample_names sample_matrix
  = Ok [(py "a.txt", py "b.txt", (1 # 2) * 100);
        (py "a.txt", py "c.txt", 0 * 100);
        (py "b.txt", py "c.txt", (1 # 4) * 100)].
Proof. reflexivity. Qed.

(* ===================================================================== *)
(** ** Symmetry of the similarity matrix                                  *)
(* ===================================================================== *)

Lemma Qmult_swap (x y : Q) : (x * y)%Q = (y * x)%Q.
Proof.
  unfold Qmult. rewrite (Z.mul_comm (Qnum x)), (Pos.mul_comm (Qden x)).
  reflexivity.
Qed.

Lemma products_swap (u v : list Q) :
  map (fun p => fst p * snd p) (combine u v)
  = map (fun p => fst p * snd p) (combine v u).
Proof.
  revert v. induction u as [|x u IH]; intros [|y v]; simpl;
    try reflexivity.
  rewrite IH, Qmult_swap. reflexivity.
Qed.

Lemma dot_swap (u v : list Q) : dot u v = dot v u.
Proof. unfold dot. rewrite products_swap. reflexivity. Qed.

Section Gram.

Variable sqrt : Q -> Q.

Lemma matrix_get_cosine (X : matrix) (i j : nat) :
  matrix_get (cosine_similarity sqrt X) i j
  = match nth_error (map (normalize_row sqrt) X) i,
          nth_error (map (normalize_row sqrt) X) j with
    | Some u, Some v => Ok (dot u v)
    | _, _ => Raise IndexError
    end.
Proof.
  unfold matrix_get, cosine_similarity, index.
  set (Xn := map (normalize_row sqrt) X).
  rewrite nth_error_map.
  destruct (nth_error Xn i) as [u|]; simpl; [|reflexivity].
  rewrite nth_error_map.
  destruct (nth_error Xn j) as [v|]; reflexivity.
Qed.

Lemma cosine_similarity_symmetric (X : matrix) :
  symmetric (cosine_similarity sqrt X).
Proof.
  intros i j. rewrite !matrix_get_cosine.
  destruct (nth_error _ i) as [u|], (nth_error _ j) as [v|];
    try reflexivity.
  rewrite dot_swap. reflexivity.
Qed.

Lemma cosine_similarity_square (X : matrix) :
  square (length X) (cosine_similarity sqrt X).
Proof.
  unfold square, cosine_similarity. rewrite !length_map.
  split; [reflexivity|]. apply Forall_forall. intros row Hrow.
  apply in_map_iff in Hrow. destruct Hrow as (u & <- & _).
  rewrite !length_map. reflexivity.
Qed.

End Gram.

(** C7.  Whatever feature matrix the vectorizer returns, the matrix returned
    by [compute_similarity_matrix], [compute_semantic_similarity] and
    [compute_similarity] is square and symmetric: [M[i, j]] and [M[j, i]]
    are the same value for all [i] and [j]. *)
Theorem similarity_matrix_symmetric :
  forall (fit_transform : nat * nat -> list pystr -> result matrix)
         (sqrt : Q -> Q) (texts : list pystr) (M : matrix),
    Checker.compute_similarity_matrix fit_transform sqrt texts = Ok M \/
    Checker.compute_semantic_similarity fit_transform sqrt texts = Ok M \/
    (exists enhanced,
        GuiApp.compute_similarity fit_transform sqrt texts enhanced = Ok M) ->
    square (length M) M /\ symmetric M.
Proof.
  intros ft sqrt texts M H.
  assert (HX : exists X, M = cosine_similarity sqrt X).
  { unfold Checker.compute_similarity_matrix,
      Checker.compute_semantic_similarity, GuiApp.compute_similarity in H.
    destruct H as [H|[H|(enhanced & H)]];
      match type of H with
      | bind_result ?r _ = _ => destruct r as [X|]; simpl in H;
                                [|discriminate H]
      end;
      injection H as <-; exists X; reflexivity. }
  destruct HX as (X & ->). split.
  - pose proof (cosine_similarity_square sqrt X) as Hs.
    rewrite (proj1 Hs) at 1. exact Hs.
  - apply cosine_similarity_symmetric.
Qed.

Lemma similarity_matrix_symmetric_witness :
  exists M,
    Checker.compute_similarity_matrix length_vectorizer floor_sqrt
      [py "the cat sat"; py "a dog"] = Ok M /\
    square (length M) M /\ symmetric M.
Proof.
  eexists. split; [reflexivity|].
  apply (@similarity_matrix_symmetric length_vectorizer floor_sqrt
           [py "the cat sat"; py "a dog"]).
  left. reflexivity.
Defined.

(* ===================================================================== *)
(** ** Loading the documents                                              *)
(* ===================================================================== *)

Lemma printed_nil (w : world) : printed w [] = w.
Proof. destruct w. unfold printed. simpl. rewrite app_nil_r. reflexivity. Qed.

Lemma printed_app (w : world) (a b : list event) :
  printed (printed w a) b = printed w (a ++ b).
Proof. unfold printed. simpl. rewrite app_assoc. reflexivity. Qed.

Lemma print_printed (e : event) (w : world) : print e w = (printed w [e], Ok tt).
Proof. reflexivity. Qed.

(** One pass of the loop of [load_documents] on a readable document. *)
Lemma load_loop_step (f : file) (rest : list file) (texts : list pystr)
      (valid_files : list file) (w : world) :
  readable f ->
  Checker.load_loop (f :: rest) texts valid_files w
  = Checker.load_loop rest
      (texts ++ (if valid f then [text_of f] else []))
      (valid_files ++ (if valid f then [f] else []))
      (printed w (warning_of f)).
Proof.
  intros Hr. unfold readable in Hr.
  unfold valid, text_of, warning_of. revert Hr. unfold extracted.
  simpl Checker.load_loop.
  destruct (pystr_eqb (lower (suffix (name f))) (py ".txt")).
  { destruct (read_text f) as [text|e]; intros Hr;
      [|exfalso; apply (Hr e); reflexivity].
    unfold bind, lift. simpl.
    destruct (truthy (strip text)).
    - rewrite printed_nil. reflexivity.
    - rewrite !app_nil_r. reflexivity. }
  destruct (pystr_eqb (lower (suffix (name f))) (py ".pdf")).
  { destruct (pdf_pages f) as [pages|e]; intros Hr;
      [|exfalso; apply (Hr e); reflexivity].
    unfold bind, lift. simpl.
    destruct (truthy (strip (pdf_text pages))).
    - rewrite printed_nil. reflexivity.
    - rewrite !app_nil_r. reflexivity. }
  destruct (pystr_eqb (lower (suffix (name f))) (py ".docx")).
  { destruct (docx_paragraphs f) as [ps|e]; intros Hr;
      [|exfalso; apply (Hr e); reflexivity].
    unfold bind, lift. simpl.
    destruct (truthy (strip (join newline ps))).
    - rewrite printed_nil. reflexivity.
    - rewrite !app_nil_r. reflexivity. }
  intros _. unfold bind. simpl. rewrite !app_nil_r. reflexivity.
Qed.

(** One pass on a document whose reader raises [e]. *)
Lemma load_loop_raise (f : file) (rest : list file) (texts : list pystr)
      (valid_files : list file) (w : world) (e : exn) :
  extracted f = Some (Raise e) ->
  Checker.load_loop (f :: rest) texts valid_files w = (w, Raise e).
Proof.
  unfold extracted. simpl Checker.load_loop.
  destruct (pystr_eqb (lower (suffix (name f))) (py ".txt")).
  { destruct (read_text f); intros H; [discriminate H|].
    injection H as ->. reflexivity. }
  destruct (pystr_eqb (lower (suffix (name f))) (py ".pdf")).
  { destruct (pdf_pages f); intros H; [discriminate H|].
    injection H as ->. reflexivity. }
  destruct (pystr_eqb (lower (suffix (name f))) (py ".docx")).
  { destruct (docx_paragraphs f); intros H; [discriminate H|].
    injection H as ->. reflexivity. }
  discriminate.
Qed.

Lemma filter_cons_app {A} (p : A -> bool) (a : A) (l : list A) :
  filter p (a :: l) = (if p a then [a] else []) ++ filter p l.
Proof. simpl. destruct (p a); reflexivity. Qed.

Lemma load_loop_readable (files : list file) :
  forall texts valid_files w,
    Forall readable files ->
    Checker.load_loop files texts valid_files w
    = (printed w (flat_map warning_of files),
       Ok (valid_files ++ filter valid files,
           texts ++ map text_of (filter valid files))).
Proof.
  induction files as [|f rest IH]; intros texts valid_files w Hall.
  - simpl. rewrite printed_nil, !app_nil_r. reflexivity.
  - inversion Hall as [|? ? Hf Hrest]; subst.
    rewrite load_loop_step by exact Hf. rewrite IH by exact Hrest.
    rewrite printed_app, filter_cons_app, map_app, <- !app_assoc.
    simpl flat_map. destruct (valid f); reflexivity.
Qed.

Lemma load_loop_aborts (pre : list file) :
  forall f post e texts valid_files w,
    Forall readable pre -> extracted f = Some (Raise e) ->
    Checker.load_loop (pre ++ f :: post) texts valid_files w
    = (printed w (flat_map warning_of pre), Raise e).
Proof.
  induction pre as [|g pre IH]; intros f post e texts valid_files w Hall Hf.
  - simpl app. rewrite (@load_loop_raise f post texts valid_files w e Hf).
    rewrite printed_nil. reflexivity.
  - inversion Hall as [|? ? Hg Hpre]; subst. simpl app.
    rewrite load_loop_step by exact Hg.
    rewrite (IH f post e _ _ _ Hpre Hf). rewrite printed_app. reflexivity.
Qed.

Lemma extract_loop_step (f : file) (rest : list file)
      (texts names : list pystr) (w : world) :
  gui_readable f ->
  GuiApp.extract_loop (f :: rest) texts names w
  = GuiApp.extract_loop rest
      (texts ++ (if gui_valid f then [gui_text_of f] else []))
      (names ++ (if gui_valid f then [name f] else []))
      (printed w (gui_warning_of f)).
Proof.
  intros Hr. unfold gui_readable in Hr.
  unfold gui_warning_of, gui_valid, gui_text_of. simpl GuiApp.extract_loop.
  destruct (GuiApp.extract_text f) as [text|e];
    [|exfalso; apply (Hr e); reflexivity].
  unfold bind, lift. simpl. destruct (truthy (strip text)).
  - rewrite printed_nil. reflexivity.
  - rewrite !app_nil_r. reflexivity.
Qed.

Lemma extract_loop_raise (f : file) (rest : list file)
      (texts names : list pystr) (w : world) (e : exn) :
  GuiApp.extract_text f = Raise e ->
  GuiApp.extract_loop (f :: rest) texts names w = (w, Raise e).
Proof.
  intros H. simpl GuiApp.extract_loop. unfold bind, lift. rewrite H.
  reflexivity.
Qed.

Lemma extract_loop_readable (files : list file) :
  forall texts names w,
    Forall gui_readable files ->
    GuiApp.extract_loop files texts names w
    = (printed w (flat_map gui_warning_of files),
       Ok (texts ++ map gui_text_of (filter gui_valid files),
           names ++ map name (filter gui_valid files))).
Proof.
  induction files as [|f rest IH]; intros texts names w Hall.
  - simpl. rewrite printed_nil, !app_nil_r. reflexivity.
  - inversion Hall as [|? ? Hf Hrest]; subst.
    rewrite extract_loop_step by exact Hf. rewrite IH by exact Hrest.
    rewrite printed_app, filter_cons_app, !map_app, <- !app_assoc.
    simpl flat_map. destruct (gui_valid f); reflexivity.
Qed.

Lemma extract_loop_aborts (pre : list file) :
  forall f post e texts names w,
    Forall gui_readable pre -> GuiApp.extract_text f = Raise e ->
    GuiApp.extract_loop (pre ++ f :: post) texts names w
    = (printed w (flat_map gui_warning_of pre), Raise e).
Proof.
  induction pre as [|g pre IH]; intros f post e texts names w Hall Hf.
  - simpl app. rewrite (@extract_loop_raise f post texts names w e Hf).
    rewrite printed_nil. reflexivity.
  - inversion Hall as [|? ? Hg Hpre]; subst. simpl app.
    rewrite extract_loop_step by exact Hg.
    rewrite (IH f post e _ _ _ Hpre Hf). rewrite printed_app. reflexivity.
Qed.

(** Either every document is readable, or there is a first one that is
    not. *)
Lemma first_unreadable (files : list file) :
  Forall readable files \/
  exists pre f post e,
    files = pre ++ f :: post /\ Forall readable pre /\
    extracted f = Some (Raise e).
Proof.
  induction files as [|f rest IH].
  - left. constructor.
  - destruct (extracted f) as [[text|e]|] eqn:E.
    + destruct IH as [IH|(pre & g & post & e & -> & Hpre & Hg)].
      * left. constructor; [|exact IH]. intros e H. congruence.
      * right. exists (f :: pre), g, post, e. split; [reflexivity|].
        split; [|exact Hg]. constructor; [|exact Hpre].
        intros e' H. congruence.
    + right. exists [], f, rest, e. repeat split; [constructor | exact E].
    + destruct IH as [IH|(pre & g & post & e & -> & Hpre & Hg)].
      * left. constructor; [|exact IH]. intros e H. congruence.
      * right. exists (f :: pre), g, post, e. split; [reflexivity|].
        split; [|exact Hg]. constructor; [|exact Hpre].
        intros e' H. congruence.
Qed.

Lemma load_documents_unfold (fs : pystr -> option (list file))
      (folder : pystr) (files : list file) (w : world) :
  fs folder = Some files ->
  Checker.load_documents fs folder w
  = match Checker.load_loop files [] [] w with
    | (w', Ok ([], _)) => (w', Raise ValueError)
    | (w', Ok (f :: valid_files, texts)) => (w', Ok (f :: valid_files, texts))
    | (w', Raise e) => (w', Raise e)
    end.
Proof.
  intros H. unfold Checker.load_documents. rewrite H. unfold bind.
  destruct (Checker.load_loop files [] [] w) as [w' [[[|f vf] tx]|e]];
    reflexivity.
Qed.

Lemma valid_warning (f : file) :
  readable f -> valid f = false -> exists ev, warning_of f = [ev].
Proof.
  unfold readable, valid, warning_of. intros Hr Hv.
  destruct (extracted f) as [[text|e]|].
  - rewrite Hv. eauto.
  - exfalso. apply (Hr e). reflexivity.
  - eauto.
Qed.

Lemma In_flat_map_self {A B} (g : A -> list B) (l : list A) (a : A) (b : B) :
  In a l -> In b (g a) -> In b (flat_map g l).
Proof. intros Ha Hb. apply in_flat_map. exists a. auto. Qed.

(** C1, as stated, fails: a PDF that PyPDF2 cannot parse, listed before a
    good text file, ends [load_documents] and the upload loop of the GUI with
    the parser's error; nothing is returned and the good file is never
    looked at. *)
Lemma corrupt_document_aborts_the_run :
  Checker.load_documents (folder_with [corrupt_pdf (py "b.pdf"); essay_a])
                         SUBMISSIONS_DIR (console [])
  = (console [], Raise PdfReadError) /\
  GuiApp.extract_loop [corrupt_pdf (py "b.pdf"); essay_a] [] [] (console [])
  = (console [], Raise PdfReadError) /\
  valid essay_a = true /\ gui_valid essay_a = true.
Proof. repeat split; reflexivity. Qed.

(** C1, amended.  When every document can be read and parsed,
    [load_documents] leaves out each document with an unsupported extension
    or with empty or blank text, prints a warning for it and goes on with
    the others: it returns the valid documents and their texts in the order
    of the folder, or raises [ValueError] when none is valid.  The upload
    loop of the GUI does the same with its own warning.  A document whose
    reader raises an error is not caught: the error ends the loop, after the
    warnings of the documents before it. *)
Theorem load_skips_blank_and_unsupported :
  (forall fs folder files w,
      fs folder = Some files -> Forall readable files ->
      Checker.load_documents fs folder w
      = (printed w (flat_map warning_of files),
         match filter valid files with
         | [] => Raise ValueError
         | _ :: _ =>
             Ok (filter valid files, map text_of (filter valid files))
         end) /\
      forall f, In f files -> valid f = false ->
                ~ In f (filter valid files) /\
                exists ev, warning_of f = [ev] /\
                           In ev (stdout (printed w (flat_map warning_of files))))
  /\
  (forall files w,
      Forall gui_readable files ->
      GuiApp.extract_loop files [] [] w
      = (printed w (flat_map gui_warning_of files),
         Ok (map gui_text_of (filter gui_valid files),
             map name (filter gui_valid files))) /\
      forall f, In f files -> gui_valid f = false ->
                ~ In f (filter gui_valid files) /\
                In (Could_not_be_processed (name f))
                   (stdout (printed w (flat_map gui_warning_of files))))
  /\
  (forall fs folder pre f post e w,
      fs folder = Some (pre ++ f :: post) ->
      Forall readable pre -> extracted f = Some (Raise e) ->
      Checker.load_documents fs folder w
      = (printed w (flat_map warning_of pre), Raise e))
  /\
  (forall pre f post e w,
      Forall gui_readable pre -> GuiApp.extract_text f = Raise e ->
      GuiApp.extract_loop (pre ++ f :: post) [] [] w
      = (printed w (flat_map gui_warning_of pre), Raise e)).
Proof.
  split; [|split; [|split]].
  - intros fs folder files w Hfs Hall. split.
    + rewrite (load_documents_unfold _ _ w Hfs).
      rewrite load_loop_readable by exact Hall. simpl.
      destruct (filter valid files); reflexivity.
    + intros f Hin Hv. split.
      * intros H. apply filter_In in H. destruct H as [_ H]. congruence.
      * rewrite Forall_forall in Hall.
        destruct (valid_warning (Hall f Hin) Hv) as (ev & Hev).
        exists ev. split; [exact Hev|]. simpl. apply in_or_app. right.
        apply (In_flat_map_self warning_of files f ev Hin).
        rewrite Hev. left. reflexivity.
  - intros files w Hall. split.
    + rewrite extract_loop_readable by exact Hall. reflexivity.
    + intros f Hin Hv. split.
      * intros H. apply filter_In in H. destruct H as [_ H]. congruence.
      * simpl. apply in_or_app. right.
        apply (In_flat_map_self gui_warning_of files f _ Hin).
        unfold gui_warning_of. rewrite Hv. left. reflexivity.
  - intros fs folder pre f post e w Hfs Hpre Hf.
    rewrite (load_documents_unfold _ _ w Hfs).
    rewrite (@load_loop_aborts pre f post e [] [] w Hpre Hf). reflexivity.
  - intros pre f post e w Hpre Hf.
    apply extract_loop_aborts; assumption.
Qed.

Lemma load_skips_blank_and_unsupported_witness :
  (Checker.load_documents (folder_with sample_folder) SUBMISSIONS_DIR
                          (console [])
   = (printed (console []) (flat_map warning_of sample_folder),
      match filter valid sample_folder with
      | [] => Raise ValueError
      | _ :: _ => Ok (filter valid sample_folder,
                      map text_of (filter valid sample_folder))
      end) /\
   forall f, In f sample_folder -> valid f = false ->
             ~ In f (filter valid sample_folder) /\
             exists ev, warning_of f = [ev] /\
                        In ev (stdout (printed (console [])
                                         (flat_map warning_of sample_folder))))
  /\
  (GuiApp.extract_loop sample_folder [] [] (console [])
   = (printed (console []) (flat_map gui_warning_of sample_folder),
      Ok (map gui_text_of (filter gui_valid sample_folder),
          map name (filter gui_valid sample_folder))) /\
   forall f, In f sample_folder -> gui_valid f = false ->
             ~ In f (filter gui_valid sample_folder) /\
             In (Could_not_be_processed (name f))
                (stdout (printed (console [])
                           (flat_map gui_warning_of sample_folder))))
  /\
  Checker.load_documents
    (folder_with ([essay_a; blank_d] ++ corrupt_pdf (py "z.pdf") :: [essay_b]))
    SUBMISSIONS_DIR (console [])
  = (printed (console []) (flat_map warning_of [essay_a; blank_d]),
     Raise PdfReadError)
  /\
  GuiApp.extract_loop
    ([essay_a; blank_d] ++ corrupt_pdf (py "z.pdf") :: [essay_b]) [] []
    (console [])
  = (printed (console []) (flat_map gui_warning_of [essay_a; blank_d]),
     Raise PdfReadError).
Proof.
  destruct load_skips_blank_and_unsupported as (T1 & T2 & T3 & T4).
  split; [|split; [|split]].
  - apply T1; [reflexivity | readable_by_computation].
  - apply T2. readable_by_computation.
  - apply (T3 _ _ [essay_a; blank_d] (corrupt_pdf (py "z.pdf")) [essay_b]);
      [reflexivity | readable_by_computation | reflexivity].
  - apply T4; [readable_by_computation | reflexivity].
Defined.

Example load_documents_sample :
  Checker.load_documents (folder_with sample_folder) SUBMISSIONS_DIR
                         (console [])
  = ({| stdin := [];
        stdout := [Empty_after_extraction (py "d.txt");
                   Skipping_unsupported (py "e.png")] |},
     Ok ([essay_a; essay_b], [py "the cat sat"; py "the cat sat down"])).
Proof. reflexivity. Qed.

Lemma valid_extracted (f : file) :
  valid f = true ->
  extracted f = Some (Ok (text_of f)) /\ strip (text_of f) <> [].
Proof.
  unfold valid, text_of.
  destruct (extracted f) as [[text|e]|]; try discriminate.
  intros H. split; [reflexivity|]. intros E. rewrite E in H. discriminate H.
Qed.

(** What a successful [load_documents] returns. *)
Lemma load_documents_returns (fs : pystr -> option (list file))
      (folder : pystr) (w w' : world) (valid_files : list file)
      (texts : list pystr) :
  Checker.load_documents fs folder w = (w', Ok (valid_files, texts)) ->
  exists files,
    fs folder = Some files /\
    valid_files = filter valid files /\
    texts = map text_of valid_files.
Proof.
  intros H. destruct (fs folder) as [files|] eqn:Hfs.
  - exists files. split; [reflexivity|].
    rewrite (load_documents_unfold _ _ w Hfs) in H.
    destruct (first_unreadable files)
      as [Hall|(pre & f & post & e & -> & Hpre & Hf)].
    + rewrite load_loop_readable in H by exact Hall. simpl in H.
      destruct (filter valid files) as [|g kept]; [discriminate H|].
      injection H as _ <- <-. split; reflexivity.
    + rewrite (@load_loop_aborts pre f post e [] [] w Hpre Hf) in H.
      discriminate H.
  - unfold Checker.load_documents in H. rewrite Hfs in H. discriminate H.
Qed.

(** C9.  The two lists returned by [load_documents] have the same length
    and are aligned: the text at index [i] is the text that was extracted
    from the file at index [i], and it is not empty after stripping.  The
    similarity matrix computed from the texts, given one feature row per
    text, therefore has one row and one column per returned file, in the
    same order. *)
Theorem load_documents_aligned :
  forall (fs : pystr -> option (list file)) (folder : pystr) (w w' : world)
         (valid_files : list file) (texts : list pystr),
    Checker.load_documents fs folder w = (w', Ok (valid_files, texts)) ->
    length valid_files = length texts /\
    (forall i f, nth_error valid_files i = Some f ->
                 exists text,
                   nth_error texts i = Some text /\
                   extracted f = Some (Ok text) /\
                   strip text <> []) /\
    (forall (sqrt : Q -> Q) (tfidf : matrix),
        length tfidf = length texts ->
        square (length valid_files) (cosine_similarity sqrt tfidf)).
Proof.
  intros fs folder w w' valid_files texts H.
  apply load_documents_returns in H.
  destruct H as (files & _ & Hv & Ht).
  assert (Hlen : length valid_files = length texts)
    by (rewrite Ht, length_map; reflexivity).
  split; [exact Hlen|]. split.
  - intros i f Hi. exists (text_of f).
    assert (Hin : In f (filter valid files))
      by (rewrite <- Hv; eapply nth_error_In; exact Hi).
    apply filter_In in Hin. destruct Hin as [_ Hvalid].
    apply valid_extracted in Hvalid. destruct Hvalid as [He Hs].
    split; [|split; assumption].
    rewrite Ht, nth_error_map, Hi. reflexivity.
  - intros sqrt tfidf Hrows. rewrite Hlen, <- Hrows.
    apply cosine_similarity_square.
Qed.

Lemma load_documents_aligned_witness :
  length [essay_a; essay_b]
  = length [py "the cat sat"; py "the cat sat down"] /\
  (forall i f, nth_error [essay_a; essay_b] i = Some f ->
               exists text,
                 nth_error [py "the cat sat"; py "the cat sat down"] i
                 = Some text /\
                 extracted f = Some (Ok text) /\
                 strip text <> []) /\
  (forall (sqrt : Q -> Q) (tfidf : matrix),
      length tfidf = length [py "the cat sat"; py "the cat sat down"] ->
      square (length [essay_a; essay_b]) (cosine_similarity sqrt tfidf)).
Proof.
  apply (@load_documents_aligned (folder_with sample_folder) SUBMISSIONS_DIR
           (console [])
           {| stdin := [];
              stdout := [Empty_after_extraction (py "d.txt");
                         Skipping_unsupported (py "e.png")] |}).
  reflexivity.
Defined.

(* ===================================================================== *)
(** ** One valid document                                                 *)
(* ===================================================================== *)

Lemma generate_report_single (f : file) (M : matrix) (threshold : Q)
      (w : world) :
  Checker.generate_report [f] M threshold w
  = (printed w [No_pairs_to_compare], Ok tt).
Proof. reflexivity. Qed.


(** C6, as stated, fails for the CLI: [main] vectorizes the texts before
    [generate_report] looks for pairs.  With the single valid document
    "a b c", which has no token of two characters, the vectorizer raises
    [ValueError] and the run ends there, without the message "No document
    pairs to compare.". *)
Lemma single_document_without_tokens_ends_the_cli :
  valid (text_file (py "a.txt") (py "a b c")) = true /\
  Checker.main (folder_with [text_file (py "a.txt") (py "a b c")])
               vocabulary_vectorizer floor_sqrt digits_float
               (console [py "1"; py "50"])
  = ({| stdin := [];
        stdout := [Banner; Loaded (py "a.txt") 5; Using_standard] |},
     Raise ValueError).
Proof. split; reflexivity. Qed.

(** C6, amended.  With exactly one valid document there is no pair: the
    flattening step returns the empty list, and [generate_report] prints "No
    document pairs to compare." and returns without computing highest,
    lowest or average, so that no division takes place.  [main] vectorizes
    the single text first: from the loading on it ends normally with that
    message when the vectorizer returns, and with the vectorizer's error,
    before any report, when the vectorizer raises.  The GUI shows "Not
    enough valid documents to compare." when one of several uploads is
    valid, and asks for at least two documents when one file is uploaded; it
    does not call the vectorizer in either case. *)
Theorem single_document_nothing_to_compare :
  (forall (f : file) (M : matrix) (threshold : Q) (w : world),
      pair_results (map name [f]) M = Ok [] /\
      Checker.generate_report [f] M threshold w
      = (printed w [No_pairs_to_compare], Ok tt)) /\
  (forall fs fit_transform sqrt mode threshold f text w w1,
      Checker.load_documents fs SUBMISSIONS_DIR w = (w1, Ok ([f], [text])) ->
      Checker.run fs fit_transform sqrt mode threshold w
      = match fit_transform (if pystr_eqb mode (py "2")
                             then (1, 5)%nat else (1, 3)%nat) [text] with
        | Ok _ =>
            (printed w1 [Loaded (name f) (length text);
                         if pystr_eqb mode (py "2")
                         then Using_enhanced else Using_standard;
                         No_pairs_to_compare], Ok tt)
        | Raise e =>
            (printed w1 [Loaded (name f) (length text);
                         if pystr_eqb mode (py "2")
                         then Using_enhanced else Using_standard], Raise e)
        end) /\
  (forall fit_transform sqrt mode threshold files w w1 text n,
      (2 <= length files)%nat ->
      GuiApp.extract_loop files [] [] w = (w1, Ok ([text], [n])) ->
      GuiApp.run_similarity_analysis fit_transform sqrt mode threshold files w
      = (printed w1 [Not_enough_valid], Ok tt)) /\
  (forall fit_transform sqrt mode threshold (f : file) (w : world),
      GuiApp.run_similarity_analysis fit_transform sqrt mode threshold [f] w
      = (printed w [Upload_at_least_two], Ok tt)).
Proof.
  split; [|split; [|split]].
  - intros. split; reflexivity.
  - intros fs ft sqrt mode threshold f text w w1 Hload.
    unfold Checker.run, bind at 1. rewrite Hload.
    unfold bind at 1. simpl for_each. unfold bind at 1.
    rewrite print_printed. unfold ret at 1. unfold bind at 1.
    unfold Checker.select_similarity.
    destruct (pystr_eqb mode (py "2")).
    + unfold bind at 1. rewrite print_printed. unfold lift.
      unfold Checker.compute_semantic_similarity.
      destruct (ft (1, 5)%nat [text]) as [X|e]; simpl bind_result.
      * cbv beta iota. rewrite generate_report_single.
        rewrite !printed_app. reflexivity.
      * cbv beta iota. rewrite !printed_app. reflexivity.
    + unfold bind at 1. rewrite print_printed. unfold lift.
      unfold Checker.compute_similarity_matrix.
      destruct (ft (1, 3)%nat [text]) as [X|e]; simpl bind_result.
      * cbv beta iota. rewrite generate_report_single.
        rewrite !printed_app. reflexivity.
      * cbv beta iota. rewrite !printed_app. reflexivity.
  - intros ft sqrt mode threshold files w w1 text n Hlen Hloop.
    unfold GuiApp.run_similarity_analysis.
    destruct (length files <? 2)%nat eqn:E;
      [apply Nat.ltb_lt in E; lia|].
    unfold bind. rewrite Hloop. reflexivity.
  - intros. reflexivity.
Qed.

Lemma single_document_nothing_to_compare_witness :
  Checker.run (folder_with [essay_a; blank_d]) length_vectorizer floor_sqrt
              (py "1") (1 # 2) (console [])
  = match length_vectorizer (if pystr_eqb (py "1") (py "2")
                             then (1, 5)%nat else (1, 3)%nat)
                            [py "the cat sat"] with
    | Ok _ =>
        (printed (printed (console [])
                          [Empty_after_extraction (py "d.txt")])
                 [Loaded (name essay_a) (length (py "the cat sat"));
                  if pystr_eqb (py "1") (py "2")
                  then Using_enhanced else Using_standard;
                  No_pairs_to_compare], Ok tt)
    | Raise e =>
        (printed (printed (console [])
                          [Empty_after_extraction (py "d.txt")])
                 [Loaded (name essay_a) (length (py "the cat sat"));
                  if pystr_eqb (py "1") (py "2")
                  then Using_enhanced else Using_standard], Raise e)
    end /\
  GuiApp.run_similarity_analysis length_vectorizer floor_sqrt [] 50
                                 [essay_a; blank_d] (console [])
  = (printed (printed (console []) [Could_not_be_processed (py "d.txt")])
             [Not_enough_valid], Ok tt).
Proof.
  destruct single_document_nothing_to_compare as (_ & T2 & T3 & _).
  split.
  - apply (T2 (folder_with [essay_a; blank_d]) length_vectorizer floor_sqrt
              (py "1") (1 # 2) essay_a (py "the cat sat")).
    reflexivity.
  - apply (T3 length_vectorizer floor_sqrt [] 50%Z [essay_a; blank_d]
              (console [])
              (printed (console []) [Could_not_be_processed (py "d.txt")])
              (py "the cat sat") (py "a.txt")).
    + simpl. lia.
    + reflexivity.
Defined.

(* ===================================================================== *)
(** ** The inputs of [main]                                               *)
(* ===================================================================== *)

(** C8.  When [float] rejects the threshold line, [main] prints "Invalid
    input! Using default threshold = 50%", takes 0.50 as threshold, whose
    percent value is 50, and goes on with the loading, the comparison and
    the report exactly as for that threshold. *)
Theorem invalid_threshold_defaults :
  forall fs fit_transform sqrt (float : pystr -> result Q)
         (line : pystr) (rest : list pystr) (out : list event) (e : exn),
    float (strip line) = Raise e ->
    Checker.read_threshold float {| stdin := line :: rest; stdout := out |}
    = ({| stdin := rest; stdout := out ++ [Invalid_threshold] |},
       Ok (1 # 2)) /\
    (1 # 2) * 100 == 50 /\
    forall mode_line : pystr,
      Checker.main fs fit_transform sqrt float
                   {| stdin := mode_line :: line :: rest; stdout := out |}
      = Checker.run fs fit_transform sqrt (strip mode_line) (1 # 2)
                    {| stdin := rest;
                       stdout := out ++ [Banner; Invalid_threshold] |}.
Proof.
  intros fs ft sqrt float line rest out e Hfloat.
  assert (Hread : forall out',
             Checker.read_threshold float
               {| stdin := line :: rest; stdout := out' |}
             = ({| stdin := rest; stdout := out' ++ [Invalid_threshold] |},
                Ok (1 # 2))).
  { intros out'. unfold Checker.read_threshold, try_except, bind, input, lift.
    simpl. rewrite Hfloat. reflexivity. }
  split; [apply Hread|]. split; [reflexivity|].
  intros mode_line. unfold Checker.main.
  unfold bind at 1. rewrite print_printed.
  unfold bind at 1. unfold input at 1. simpl.
  unfold bind at 1. rewrite Hread. rewrite <- app_assoc. reflexivity.
Qed.

Lemma invalid_threshold_defaults_witness :
  Checker.read_threshold digits_float
    {| stdin := [py "high"; py "unread"]; stdout := [Banner] |}
  = ({| stdin := [py "unread"]; stdout := [Banner] ++ [Invalid_threshold] |},
     Ok (1 # 2)) /\
  (1 # 2) * 100 == 50 /\
  forall mode_line : pystr,
    Checker.main (folder_with sample_folder) length_vectorizer floor_sqrt
                 digits_float
                 {| stdin := [mode_line; py "high"; py "unread"];
                    stdout := [Banner] |}
    = Checker.run (folder_with sample_folder) length_vectorizer floor_sqrt
                  (strip mode_line) (1 # 2)
                  {| stdin := [py "unread"];
                     stdout := [Banner] ++ [Banner; Invalid_threshold] |}.
Proof.
  apply (@invalid_threshold_defaults (folder_with sample_folder)
           length_vectorizer floor_sqrt digits_float (py "high")
           [py "unread"] [Banner] ValueError).
  reflexivity.
Defined.





(* ===================================================================== *)
(** ** The whole report on a sample                                       *)
(* ===================================================================== *)

(** Three files with the similarities 0.5, 0 and 0.25 and a threshold of
    50 percent: three comparisons, highest a-b at 50, lowest a-c at 0; only
    the first row reaches the threshold, all three go to the report files. *)
Example generate_report_sample :
  stdout (fst (Checker.generate_report [essay_a; essay_b; essay_c]
                 sample_matrix (1 # 2) (console [])))
  = [Summary 3 3 (py "a.txt", py "b.txt", 100 # 2) (py "a.txt", py "c.TXT", 0)
             (600 # 24);
     Result_line true (py "a.txt", py "b.txt", 100 # 2) MILD_SIMILARITY;
     Reports_saved [((py "a.txt", py "b.txt", 100 # 2), MILD_SIMILARITY);
                    ((py "b.txt", py "c.TXT", 100 # 4), SAFE);
                    ((py "a.txt", py "c.TXT", 0), SAFE)];
     Highest_match (py "a.txt") (py "b.txt")].
Proof. reflexivity. Qed.

(* ===================================================================== *)
(** ** The badge of the top match and the risk labels                     *)
(* ===================================================================== *)

Lemma badges_distinct :
  PLAGIARIZED <> HIGHLY_SIMILAR /\ PLAGIARIZED <> POSSIBLY_INSPIRED /\
  PLAGIARIZED <> LIKELY_ORIGINAL /\ HIGHLY_SIMILAR <> POSSIBLY_INSPIRED /\
  HIGHLY_SIMILAR <> LIKELY_ORIGINAL /\ POSSIBLY_INSPIRED <> LIKELY_ORIGINAL.
Proof. repeat split; intro H; vm_compute in H; discriminate H. Qed.

Ltac split_ge s b :=
  let E := fresh "E" in
  destruct (ge s b) eqn:E; [apply ge_true in E | apply ge_false in E].

(** X1.  [plagiarism_badge] answers Plagiarized exactly from 90 up, Highly
    Similar exactly in [75, 90), Possibly Inspired exactly in [50, 75) and
    Likely Original exactly below 50. *)
Theorem plagiarism_badge_thresholds :
  forall s : Q,
    (GuiApp.plagiarism_badge s = PLAGIARIZED <-> 90 <= s) /\
    (GuiApp.plagiarism_badge s = HIGHLY_SIMILAR <-> 75 <= s /\ s < 90) /\
    (GuiApp.plagiarism_badge s = POSSIBLY_INSPIRED <-> 50 <= s /\ s < 75) /\
    (GuiApp.plagiarism_badge s = LIKELY_ORIGINAL <-> s < 50).
Proof.
  destruct badges_distinct as (D1 & D2 & D3 & D4 & D5 & D6).
  intros s. unfold GuiApp.plagiarism_badge.
  fold PLAGIARIZED HIGHLY_SIMILAR POSSIBLY_INSPIRED LIKELY_ORIGINAL.
  split_ge s 90; [|split_ge s 75; [|split_ge s 50]];
    repeat split; intros; try tauto; try congruence;
    try (exfalso; repeat match goal with H : _ /\ _ |- _ => destruct H end;
         lra).
Qed.

Lemma plagiarism_badge_thresholds_witness :
  GuiApp.plagiarism_badge 90 = PLAGIARIZED /\
  GuiApp.plagiarism_badge 89 = HIGHLY_SIMILAR.
Proof.
  split.
  - apply (proj2 (proj1 (plagiarism_badge_thresholds 90))).
    vm_compute. discriminate.
  - apply (proj2 (proj1 (proj2 (plagiarism_badge_thresholds 89)))).
    split; vm_compute; [discriminate | reflexivity].
Defined.

Lemma badge_cases (s : Q) :
  (90 <= s /\ GuiApp.plagiarism_badge s = PLAGIARIZED) \/
  (75 <= s /\ s < 90 /\ GuiApp.plagiarism_badge s = HIGHLY_SIMILAR) \/
  (50 <= s /\ s < 75 /\ GuiApp.plagiarism_badge s = POSSIBLY_INSPIRED) \/
  (s < 50 /\ GuiApp.plagiarism_badge s = LIKELY_ORIGINAL).
Proof.
  unfold GuiApp.plagiarism_badge.
  fold PLAGIARIZED HIGHLY_SIMILAR POSSIBLY_INSPIRED LIKELY_ORIGINAL.
  split_ge s 90; [|split_ge s 75; [|split_ge s 50]]; tauto.
Qed.

Lemma risk_cases (s : Q) :
  (85 <= s /\ GuiApp.similarity_risk_level s = HIGH_RISK) \/
  (70 <= s /\ s < 85 /\ GuiApp.similarity_risk_level s = MEDIUM_RISK) \/
  (50 <= s /\ s < 70 /\ GuiApp.similarity_risk_level s = MILD_SIMILARITY) \/
  (s < 50 /\ GuiApp.similarity_risk_level s = SAFE).
Proof.
  unfold GuiApp.similarity_risk_level.
  split_ge s 85; [|split_ge s 70; [|split_ge s 50]]; tauto.
Qed.

(** X2.  The badge and the risk label of one score never contradict each
    other although their thresholds differ: Likely Original goes with SAFE
    and with nothing else, Plagiarized is given only to HIGH RISK scores,
    a HIGH RISK score is Plagiarized or Highly Similar, and a Possibly
    Inspired score is MILD SIMILARITY or MEDIUM RISK. *)
Theorem badge_agrees_with_risk :
  forall s : Q,
    (GuiApp.plagiarism_badge s = LIKELY_ORIGINAL
     <-> GuiApp.similarity_risk_level s = SAFE) /\
    (GuiApp.plagiarism_badge s = PLAGIARIZED ->
     GuiApp.similarity_risk_level s = HIGH_RISK) /\
    (GuiApp.similarity_risk_level s = HIGH_RISK ->
     GuiApp.plagiarism_badge s = PLAGIARIZED \/
     GuiApp.plagiarism_badge s = HIGHLY_SIMILAR) /\
    (GuiApp.plagiarism_badge s = POSSIBLY_INSPIRED ->
     GuiApp.similarity_risk_level s = MILD_SIMILARITY \/
     GuiApp.similarity_risk_level s = MEDIUM_RISK).
Proof.
  destruct badges_distinct as (D1 & D2 & D3 & D4 & D5 & D6).
  destruct labels_distinct as (L1 & L2 & L3 & L4 & L5 & L6).
  intros s.
  destruct (badge_cases s) as [(B1 & B)|[(B1 & B2 & B)|[(B1 & B2 & B)|(B1 & B)]]];
    destruct (risk_cases s)
      as [(R1 & R)|[(R1 & R2 & R)|[(R1 & R2 & R)|(R1 & R)]]];
    rewrite B, R; try (exfalso; lra);
    repeat split; intros; try tauto; try congruence.
Qed.

Lemma badge_agrees_with_risk_witness :
  GuiApp.similarity_risk_level 95 = HIGH_RISK /\
  GuiApp.similarity_risk_level 10 = SAFE.
Proof.
  split.
  - apply (proj1 (proj2 (badge_agrees_with_risk 95))). reflexivity.
  - apply (proj1 (proj1 (badge_agrees_with_risk 10))). reflexivity.
Defined.

Lemma risk_rank_cases (s : Q) :
  (85 <= s /\ risk_rank (Checker.similarity_risk_level s) = 3%nat) \/
  (70 <= s /\ s < 85 /\ risk_rank (Checker.similarity_risk_level s) = 2%nat) \/
  (50 <= s /\ s < 70 /\ risk_rank (Checker.similarity_risk_level s) = 1%nat) \/
  (s < 50 /\ risk_rank (Checker.similarity_risk_level s) = 0%nat).
Proof.
  unfold Checker.similarity_risk_level.
  split_ge s 85; [|split_ge s 70; [|split_ge s 50]];
    [left | right; left | right; right; left | right; right; right];
    repeat split; try assumption; reflexivity.
Qed.

(** X3.  The risk classification is monotone: a score that is at least as
    high never gets a less severe label. *)
Theorem similarity_risk_level_monotone :
  forall s t : Q,
    s <= t ->
    (risk_rank (Checker.similarity_risk_level s)
     <= risk_rank (Checker.similarity_risk_level t))%nat.
Proof.
  intros s t Hst.
  destruct (risk_rank_cases s)
    as [(S1 & ->)|[(S1 & S2 & ->)|[(S1 & S2 & ->)|(S1 & ->)]]];
    destruct (risk_rank_cases t)
      as [(T1 & ->)|[(T1 & T2 & ->)|[(T1 & T2 & ->)|(T1 & ->)]]];
    try lia; exfalso; lra.
Qed.

Lemma similarity_risk_level_monotone_witness :
  (risk_rank (Checker.similarity_risk_level (84999 # 1000))
   <= risk_rank (Checker.similarity_risk_level 85))%nat.
Proof.
  apply similarity_risk_level_monotone. vm_compute. discriminate.
Defined.

(* ===================================================================== *)
(** ** Which documents are kept                                           *)
(* ===================================================================== *)

Lemma lstrip_nil_iff (s : pystr) :
  lstrip s = [] <-> forallb is_space s = true.
Proof.
  induction s as [|c t IH]; simpl.
  - tauto.
  - destruct (is_space c); simpl; [exact IH|].
    split; discriminate.
Qed.

Lemma lstrip_head (s : pystr) (c : char) (t : pystr) :
  lstrip s = c :: t -> is_space c = false.
Proof.
  induction s as [|d u IH]; simpl; [discriminate|].
  destruct (is_space d) eqn:E; [exact IH|].
  intros H. injection H as -> _. exact E.
Qed.

Lemma forallb_rev {A} (p : A -> bool) (l : list A) :
  forallb p (rev l) = forallb p l.
Proof.
  induction l as [|a l IH]; simpl; [reflexivity|].
  rewrite forallb_app, IH. simpl. rewrite andb_true_r. apply andb_comm.
Qed.

Lemma rev_nil_iff {A} (l : list A) : rev l = [] <-> l = [].
Proof.
  split; intros H.
  - rewrite <- (rev_involutive l), H. reflexivity.
  - rewrite H. reflexivity.
Qed.

Lemma strip_nil_iff (s : pystr) : strip s = [] <-> forallb is_space s = true.
Proof.
  unfold strip, rstrip. split; intros H.
  - apply (proj1 (rev_nil_iff _)) in H.
    apply (proj1 (lstrip_nil_iff _)) in H.
    rewrite forallb_rev in H. apply lstrip_nil_iff.
    destruct (lstrip s) as [|c t] eqn:E; [reflexivity|].
    apply lstrip_head in E. simpl in H. rewrite E in H. discriminate H.
  - apply (proj2 (lstrip_nil_iff _)) in H. rewrite H. reflexivity.
Qed.

Lemma has_visible_char_forallb (s : pystr) :
  has_visible_char s = negb (forallb is_space s).
Proof.
  unfold has_visible_char. induction s as [|c t IH]; simpl; [reflexivity|].
  rewrite IH. destruct (is_space c); reflexivity.
Qed.

Lemma truthy_strip (s : pystr) : truthy (strip s) = has_visible_char s.
Proof.
  rewrite has_visible_char_forallb.
  destruct (forallb is_space s) eqn:E.
  - apply strip_nil_iff in E. rewrite E. reflexivity.
  - destruct (strip s) eqn:Es; [|reflexivity].
    apply strip_nil_iff in Es. congruence.
Qed.

Lemma valid_iff_visible (f : file) :
  valid f = true <->
  exists text, extracted f = Some (Ok text) /\ has_visible_char text = true.
Proof.
  unfold valid. destruct (extracted f) as [[text|e]|].
  - rewrite truthy_strip. split.
    + intros H. exists text. auto.
    + intros (t & Ht & Hv). injection Ht as <-. exact Hv.
  - split; [discriminate|]. intros (t & Ht & _). discriminate Ht.
  - split; [discriminate|]. intros (t & Ht & _). discriminate Ht.
Qed.

(** What a successful [load_documents] returns and prints. *)
Lemma load_documents_returns_world (fs : pystr -> option (list file))
      (folder : pystr) (w w' : world) (valid_files : list file)
      (texts : list pystr) :
  Checker.load_documents fs folder w = (w', Ok (valid_files, texts)) ->
  exists files,
    fs folder = Some files /\ Forall readable files /\
    w' = printed w (flat_map warning_of files) /\
    valid_files = filter valid files /\
    texts = map text_of valid_files.
Proof.
  intros H. destruct (fs folder) as [files|] eqn:Hfs.
  - exists files. split; [reflexivity|].
    rewrite (load_documents_unfold _ _ w Hfs) in H.
    destruct (first_unreadable files)
      as [Hall|(pre & f & post & e & -> & Hpre & Hf)].
    + rewrite load_loop_readable in H by exact Hall. simpl in H.
      destruct (filter valid files) as [|g kept]; [discriminate H|].
      injection H as <- <- <-. repeat split. exact Hall.
    + rewrite (@load_loop_aborts pre f post e [] [] w Hpre Hf) in H.
      discriminate H.
  - unfold Checker.load_documents in H. rewrite Hfs in H. discriminate H.
Qed.

(** X4.  [load_documents] keeps a file of the folder exactly when its
    extension is supported and the text extracted from it has at least one
    character that is not whitespace; every text it returns has such a
    character. *)
Theorem load_documents_keeps_visible_text :
  forall (fs : pystr -> option (list file)) (folder : pystr) (w w' : world)
         (files valid_files : list file) (texts : list pystr),
    fs folder = Some files ->
    Checker.load_documents fs folder w = (w', Ok (valid_files, texts)) ->
    Forall (fun text => has_visible_char text = true) texts /\
    forall f, In f files ->
              (In f valid_files <->
               exists text, extracted f = Some (Ok text) /\
                            has_visible_char text = true).
Proof.
  intros fs folder w w' files valid_files texts Hfs H.
  apply load_documents_returns in H.
  destruct H as (files' & Hfs' & Hv & Ht).
  rewrite Hfs in Hfs'. injection Hfs' as <-. split.
  - rewrite Ht. apply Forall_forall. intros text Hin.
    apply in_map_iff in Hin. destruct Hin as (f & <- & Hf).
    rewrite Hv in Hf. apply filter_In in Hf. destruct Hf as [_ Hf].
    apply valid_iff_visible in Hf. destruct Hf as (text & He & Hvis).
    unfold text_of. rewrite He. exact Hvis.
  - intros f Hin. rewrite Hv, filter_In, valid_iff_visible. tauto.
Qed.

Lemma load_documents_keeps_visible_text_witness :
  Forall (fun text => has_visible_char text = true)
         [py "the cat sat"; py "the cat sat down"] /\
  forall f, In f sample_folder ->
            (In f [essay_a; essay_b] <->
             exists text, extracted f = Some (Ok text) /\
                          has_visible_char text = true).
Proof.
  apply (@load_documents_keeps_visible_text (folder_with sample_folder)
           SUBMISSIONS_DIR (console [])
           {| stdin := [];
              stdout := [Empty_after_extraction (py "d.txt");
                         Skipping_unsupported (py "e.png")] |}).
  - reflexivity.
  - reflexivity.
Defined.

Lemma warning_or_valid (f : file) :
  readable f ->
  (length (warning_of f) + (if valid f then 1 else 0) = 1)%nat.
Proof.
  unfold readable, warning_of, valid. intros Hr.
  destruct (extracted f) as [[text|e]|].
  - destruct (truthy (strip text)); reflexivity.
  - exfalso. apply (Hr e). reflexivity.
  - reflexivity.
Qed.

Lemma warnings_and_valid (files : list file) :
  Forall readable files ->
  (length (flat_map warning_of files) + length (filter valid files)
   = length files)%nat.
Proof.
  induction 1 as [|f rest Hf _ IH]; simpl; [reflexivity|].
  rewrite length_app. pose proof (warning_or_valid Hf) as H1.
  destruct (valid f); simpl; lia.
Qed.

(** X5.  Every path that [sorted(folder.glob("*.*"))] lists is accounted
    for once: when [load_documents] returns, the number of files it returns
    plus the number of warnings it printed is the number of listed paths.
    (A file whose name has no dot is not listed; it is neither returned nor
    warned about.) *)
Theorem load_documents_accounts_for_every_listed_file :
  forall (fs : pystr -> option (list file)) (folder : pystr) (w w' : world)
         (files valid_files : list file) (texts : list pystr),
    fs folder = Some files ->
    Checker.load_documents fs folder w = (w', Ok (valid_files, texts)) ->
    exists warnings,
      stdout w' = stdout w ++ warnings /\
      (length valid_files + length warnings = length files)%nat.
Proof.
  intros fs folder w w' files valid_files texts Hfs H.
  apply load_documents_returns_world in H.
  destruct H as (files' & Hfs' & Hall & Hw & Hv & _).
  rewrite Hfs in Hfs'. injection Hfs' as <-.
  exists (flat_map warning_of files). split.
  - rewrite Hw. reflexivity.
  - rewrite Hv. pose proof (warnings_and_valid Hall). lia.
Qed.

Lemma load_documents_accounts_for_every_listed_file_witness :
  exists warnings,
    [Empty_after_extraction (py "d.txt"); Skipping_unsupported (py "e.png")]
    = [] ++ warnings /\
    (length [essay_a; essay_b] + length warnings
     = length sample_folder)%nat.
Proof.
  apply (@load_documents_accounts_for_every_listed_file
           (folder_with sample_folder) SUBMISSIONS_DIR (console [])
           {| stdin := [];
              stdout := [Empty_after_extraction (py "d.txt");
                         Skipping_unsupported (py "e.png")] |}
           sample_folder [essay_a; essay_b]
           [py "the cat sat"; py "the cat sat down"]).
  - reflexivity.
  - reflexivity.
Defined.

Lemma pdf_text_from (pages : list (option pystr)) (acc : pystr) :
  fold_left (fun text page =>
               text ++ match page with Some t => t | None => [] end)
            pages acc
  = acc ++ pdf_text pages.
Proof.
  unfold pdf_text. revert acc.
  induction pages as [|p pages IH]; intros acc; simpl.
  - rewrite app_nil_r. reflexivity.
  - destruct p as [t|].
    + rewrite (IH (acc ++ t)), (IH t), app_assoc. reflexivity.
    + rewrite app_nil_r. apply IH.
Qed.

Lemma pdf_text_cons (p : option pystr) (pages : list (option pystr)) :
  pdf_text (p :: pages)
  = match p with Some t => t | None => [] end ++ pdf_text pages.
Proof. unfold pdf_text at 1. simpl. apply pdf_text_from. Qed.

Lemma pdf_text_blank (pages : list (option pystr)) :
  Forall (fun page => match page with
                      | Some t => has_visible_char t = false
                      | None => True
                      end) pages ->
  has_visible_char (pdf_text pages) = false.
Proof.
  induction 1 as [|p pages Hp _ IH]; [reflexivity|].
  rewrite pdf_text_cons. unfold has_visible_char in *.
  rewrite existsb_app, IH. destruct p as [t|]; [rewrite Hp|]; reflexivity.
Qed.

(** X6.  A PDF whose pages all yield no text, or only whitespace (scanned
    pages), is left out of the corpus: [load_documents] prints the "empty
    after extraction" warning for it and goes on with the next file, and
    its lists are unchanged. *)
Theorem scanned_pdf_is_skipped :
  forall (f : file) (pages : list (option pystr)) (rest : list file)
         (texts : list pystr) (valid_files : list file) (w : world),
    lower (suffix (name f)) = py ".pdf" ->
    pdf_pages f = Ok pages ->
    Forall (fun page => match page with
                        | Some t => has_visible_char t = false
                        | None => True
                        end) pages ->
    Checker.load_loop (f :: rest) texts valid_files w
    = Checker.load_loop rest texts valid_files
        (printed w [Empty_after_extraction (name f)]).
Proof.
  intros f pages rest texts valid_files w Hext Hpages Hblank.
  assert (He : extracted f = Some (Ok (pdf_text pages))).
  { unfold extracted. rewrite Hext, Hpages. reflexivity. }
  assert (Hr : readable f) by (intros e H; congruence).
  rewrite (load_loop_step rest texts valid_files w Hr).
  unfold valid, warning_of. rewrite He, truthy_strip.
  rewrite (pdf_text_blank Hblank), !app_nil_r. reflexivity.
Qed.

Lemma scanned_pdf_is_skipped_witness :
  Checker.load_loop
    [{| name := py "scan.PDF"; read_text := Raise OSError;
        pdf_pages := Ok [None; Some (py " "); None];
        docx_paragraphs := Raise PackageNotFoundError |}; essay_a]
    [] [] (console [])
  = Checker.load_loop [essay_a] [] []
      (printed (console []) [Empty_after_extraction (py "scan.PDF")]).
Proof.
  apply (@scanned_pdf_is_skipped
           {| name := py "scan.PDF"; read_text := Raise OSError;
              pdf_pages := Ok [None; Some (py " "); None];
              docx_paragraphs := Raise PackageNotFoundError |}
           [None; Some (py " "); None]).
  - reflexivity.
  - reflexivity.
  - repeat constructor.
Defined.

(* ===================================================================== *)
(** ** The two ways of choosing a reader                                  *)
(* ===================================================================== *)

Lemma pystr_eqb_eq (a b : pystr) : pystr_eqb a b = true -> a = b.
Proof.
  unfold pystr_eqb. destruct (list_eq_dec N.eq_dec a b); [auto|discriminate].
Qed.

Lemma pystr_eqb_refl (a : pystr) : pystr_eqb a a = true.
Proof.
  unfold pystr_eqb. destruct (list_eq_dec N.eq_dec a a); [auto|contradiction].
Qed.

Lemma lower_suffix_skipn (n : pystr) :
  lower (suffix n) <> [] ->
  exists i, skipn i (lower n) = lower (suffix n).
Proof.
  unfold suffix. destruct (rfind_dot n) as [i|]; [|intros H; contradiction H;
                                                   reflexivity].
  destruct ((0 <? i)%nat && (i <? length n - 1)%nat).
  - intros _. exists i. unfold lower. apply skipn_map.
  - intros H. contradiction H. reflexivity.
Qed.

Lemma endswith_skipn (s ext : pystr) (i : nat) :
  ext <> [] -> skipn i s = ext -> endswith s ext = true.
Proof.
  intros Hne H. unfold endswith.
  assert (Hlen : length ext = (length s - i)%nat)
    by (rewrite <- H; apply length_skipn).
  assert (Hi : (i < length s)%nat).
  { destruct (Nat.lt_ge_cases i (length s)) as [Hlt|Hge]; [exact Hlt|].
    rewrite skipn_all2 in H by exact Hge. congruence. }
  replace (length s - length ext)%nat with i by lia.
  rewrite H, pystr_eqb_refl. simpl. apply Nat.leb_le. lia.
Qed.

Lemma endswith_tail (s ext : pystr) :
  endswith s ext = true ->
  skipn (length s - length ext) s = ext /\ (length ext <= length s)%nat.
Proof.
  unfold endswith. intros H. apply andb_true_iff in H. destruct H as [H1 H2].
  split; [apply pystr_eqb_eq; exact H1 | apply Nat.leb_le; exact H2].
Qed.

(** Of two endings of the same string, the shorter is an ending of the
    longer. *)
Lemma endswith_both (s a b : pystr) :
  endswith s a = true -> endswith s b = true ->
  (length b <= length a)%nat ->
  skipn (length a - length b) a = b.
Proof.
  intros Ha Hb Hle.
  apply endswith_tail in Ha. apply endswith_tail in Hb.
  destruct Ha as [Ha La], Hb as [Hb Lb].
  rewrite <- Ha at 2. rewrite skipn_skipn.
  replace (length a - length b + (length s - length a))%nat
    with (length s - length b)%nat by lia.
  exact Hb.
Qed.

Lemma endswith_exclusive (s a b : pystr) :
  endswith s a = true -> (length b <= length a)%nat ->
  skipn (length a - length b) a <> b -> endswith s b = false.
Proof.
  intros Ha Hle Hne. destruct (endswith s b) eqn:Hb; [|reflexivity].
  exfalso. apply Hne. eapply endswith_both; eassumption.
Qed.

(** X7.  Every file for which the extension test of [load_documents]
    selects a reader passes the corresponding [endswith] test of
    [extract_text] and fails the tests tried before it, so that the GUI
    hands it to the same kind of reader.  For a PDF and for a DOCX the GUI
    then builds the same text from the pages or paragraphs, or ends with the
    same error, as the CLI. *)
Theorem gui_selects_the_reader_of_the_cli :
  forall f : file,
    (lower (suffix (name f)) = py ".txt" ->
     endswith (lower (name f)) (py ".txt") = true) /\
    (lower (suffix (name f)) = py ".pdf" ->
     endswith (lower (name f)) (py ".txt") = false /\
     endswith (lower (name f)) (py ".pdf") = true /\
     extracted f = Some (GuiApp.extract_text f)) /\
    (lower (suffix (name f)) = py ".docx" ->
     endswith (lower (name f)) (py ".txt") = false /\
     endswith (lower (name f)) (py ".pdf") = false /\
     endswith (lower (name f)) (py ".docx") = true /\
     extracted f = Some (GuiApp.extract_text f)).
Proof.
  intros f.
  assert (Hend : forall ext, ext <> [] -> lower (suffix (name f)) = ext ->
                             endswith (lower (name f)) ext = true).
  { intros ext Hne E.
    destruct (@lower_suffix_skipn (name f)) as (i & Hi);
      [rewrite E; exact Hne|].
    rewrite E in Hi. apply (@endswith_skipn _ _ i); assumption. }
  split; [|split].
  - intros E. apply Hend; [intro H; vm_compute in H; discriminate H|exact E].
  - intros E.
    assert (Hpdf : endswith (lower (name f)) (py ".pdf") = true)
      by (apply Hend; [intro H; vm_compute in H; discriminate H|exact E]).
    assert (Htxt : endswith (lower (name f)) (py ".txt") = false).
    { apply (@endswith_exclusive _ (py ".pdf") (py ".txt") Hpdf);
        [simpl; lia | vm_compute; discriminate]. }
    split; [exact Htxt|]. split; [exact Hpdf|].
    unfold extracted, GuiApp.extract_text.
    rewrite E, Htxt, Hpdf. reflexivity.
  - intros E.
    assert (Hdocx : endswith (lower (name f)) (py ".docx") = true)
      by (apply Hend; [intro H; vm_compute in H; discriminate H|exact E]).
    assert (Htxt : endswith (lower (name f)) (py ".txt") = false).
    { apply (@endswith_exclusive _ (py ".docx") (py ".txt") Hdocx);
        [simpl; lia | vm_compute; discriminate]. }
    assert (Hpdf : endswith (lower (name f)) (py ".pdf") = false).
    { apply (@endswith_exclusive _ (py ".docx") (py ".pdf") Hdocx);
        [simpl; lia | vm_compute; discriminate]. }
    split; [exact Htxt|]. split; [exact Hpdf|]. split; [exact Hdocx|].
    unfold extracted, GuiApp.extract_text.
    rewrite E, Htxt, Hpdf, Hdocx. reflexivity.
Qed.

Lemma gui_selects_the_reader_of_the_cli_witness :
  endswith (lower (name essay_c)) (py ".txt") = true /\
  endswith (lower (py "Scan.PDF")) (py ".pdf") = true.
Proof.
  split.
  - apply (proj1 (gui_selects_the_reader_of_the_cli essay_c)). reflexivity.
  - apply (proj1 (proj2 (gui_selects_the_reader_of_the_cli
                            (corrupt_pdf (py "Scan.PDF"))))).
    reflexivity.
Defined.

(** The converse fails: a file named ".txt" has no suffix for pathlib, so
    the CLI skips it as unsupported, while its name ends with ".txt" and the
    GUI takes it as a text file. *)
Example hidden_txt_only_read_by_gui :
  extracted (text_file (py ".txt") (py "notes")) = None /\
  endswith (lower (py ".txt")) (py ".txt") = true.
Proof. split; reflexivity. Qed.

(* ===================================================================== *)
(** ** The report of the CLI                                              *)
(* ===================================================================== *)


Lemma for_each_print {A} (e : A -> event) (l : list A) :
  forall w, for_each l (fun a => print (e a)) w = (printed w (map e l), Ok tt).
Proof.
  induction l as [|a l IH]; intros w; simpl.
  - rewrite printed_nil. reflexivity.
  - unfold bind. simpl. rewrite IH. unfold printed. simpl.
    rewrite <- app_assoc. reflexivity.
Qed.

Lemma pair_results_square (names : list pystr) (M : matrix) :
  square (length names) M ->
  exists pairs,
    pair_results names M = Ok pairs /\
    length pairs = (length names * (length names - 1) / 2)%nat.
Proof.
  intros Hsq. unfold pair_results.
  destruct (@mapM_Forall2 _ _ (pair_result_at names M)
                          (index_pairs (length names)))
    as (pairs & Hres & Hall).
  { intros [i j] Hin. apply In_index_pairs in Hin.
    apply pair_result_at_square; assumption. }
  exists pairs. split; [exact Hres|].
  rewrite <- (Forall2_length Hall). apply length_index_pairs.
Qed.

Lemma pairs_positive (n : nat) : (2 <= n -> 0 < n * (n - 1) / 2)%nat.
Proof.
  intros H. apply Nat.div_str_pos. split; [lia|].
  destruct n as [|[|n]]; simpl; lia.
Qed.

Lemma sort_desc_length (l : list pair_result) :
  length (sort_desc l) = length l.
Proof. symmetry. apply Permutation_length. apply sort_desc_perm. Qed.

Lemma summarize_nonempty (l : list pair_result) :
  l <> [] ->
  exists highest lowest avg,
    summarize l = Ok (highest, lowest, avg) /\ hd_error l = Some highest.
Proof.
  intros Hne. destruct (nonempty_last Hne) as (front & z & E).
  destruct l as [|h back]; [contradiction|].
  exists h, z, (sum (map score (h :: back))
                / inject_Z (Z.of_nat (length (h :: back)))).
  split; [|reflexivity].
  apply summarize_cons_snoc with (front := front). exact E.
Qed.




Lemma filter_none {A} (c : A -> bool) (l : list A) :
  Forall (fun a => c a = false) l -> filter c l = [].
Proof.
  induction 1 as [|a l Ha _ IH]; simpl; [reflexivity|].
  rewrite Ha. exact IH.
Qed.

Lemma above_threshold_prefix (bound : Q) (l : list pair_result) :
  sorted_desc l ->
  exists k,
    filter (fun r => ge (score r) bound) l = firstn k l /\
    Forall (fun r => score r < bound) (skipn k l).
Proof.
  unfold sorted_desc. induction 1 as [|h t Hs IH Hall].
  - exists 0%nat. split; [reflexivity | constructor].
  - simpl. destruct (ge (score h) bound) eqn:E.
    + destruct IH as (k & Hk & Hrest). exists (S k). simpl.
      rewrite Hk. split; [reflexivity | exact Hrest].
    + apply ge_false in E. exists 0%nat. simpl.
      assert (Hbelow : Forall (fun r => score r < bound) t).
      { eapply Forall_impl; [|exact Hall]. intros r Hr. simpl in Hr.
        eapply Qle_lt_trans; eassumption. }
      split.
      * apply filter_none. eapply Forall_impl; [|exact Hbelow].
        intros r Hr. apply ge_false. exact Hr.
      * constructor; assumption.
Qed.

(** X9.  The console lines of the report are a prefix of the sorted
    results: the rows whose score reaches a bound are the first [k] rows of
    the sorted list, and every row after them is below the bound. *)
Theorem rows_above_threshold_come_first :
  forall (results : list pair_result) (bound : Q),
    exists k,
      filter (fun r => ge (score r) bound) (sort_desc results)
      = firstn k (sort_desc results) /\
      Forall (fun r => score r < bound) (skipn k (sort_desc results)).
Proof.
  intros results bound. apply above_threshold_prefix. apply sort_desc_sorted.
Qed.

Lemma index_raises {A} (l : list A) (i : nat) (e : exn) :
  index l i = Raise e -> e = IndexError.
Proof.
  unfold index. destruct (nth_error l i); intros H; [discriminate H|].
  injection H as <-. reflexivity.
Qed.

Lemma pair_result_at_raises (names : list pystr) (M : matrix)
      (ij : nat * nat) (e : exn) :
  pair_result_at names M ij = Raise e -> e = IndexError.
Proof.
  destruct ij as [i j]. unfold pair_result_at, matrix_get.
  destruct (index M i) as [row|e1] eqn:E1; simpl.
  - destruct (index row j) as [m|e2] eqn:E2; simpl.
    + destruct (index names i) as [ni|e3] eqn:E3; simpl.
      * destruct (index names j) as [nj|e4] eqn:E4; simpl; [discriminate|].
        intros H. injection H as <-. eapply index_raises. exact E4.
      * intros H. injection H as <-. eapply index_raises. exact E3.
    + intros H. injection H as <-. eapply index_raises. exact E2.
  - intros H. injection H as <-. eapply index_raises. exact E1.
Qed.

Lemma mapM_raises {A B} (f : A -> result B) (l : list A) (a : A) (e0 : exn) :
  (forall x e, f x = Raise e -> e = IndexError) ->
  In a l -> f a = Raise e0 -> mapM f l = Raise IndexError.
Proof.
  intros Hf. induction l as [|x l IH]; intros Hin Ha; [contradiction|].
  simpl. destruct (f x) as [b|e] eqn:Ex; simpl.
  - destruct Hin as [->|Hin]; [congruence|].
    rewrite (IH Hin Ha). reflexivity.
  - rewrite (Hf x e Ex). reflexivity.
Qed.

(** X10.  When the matrix lacks the entry of some pair of files,
    [generate_report] raises [IndexError] before it prints or writes
    anything. *)
Theorem generate_report_matrix_too_small :
  forall (files : list file) (M : matrix) (threshold : Q) (w : world)
         (i j : nat) (e : exn),
    (i < j < length files)%nat ->
    matrix_get M i j = Raise e ->
    Checker.generate_report files M threshold w = (w, Raise IndexError).
Proof.
  intros files M threshold w i j e Hij Hget.
  assert (Hp : pair_results (map name files) M = Raise IndexError).
  { unfold pair_results.
    apply (@mapM_raises _ _ (pair_result_at (map name files) M)
                        (index_pairs (length (map name files))) (i, j) e).
    - intros x e'. apply pair_result_at_raises.
    - apply In_index_pairs. rewrite length_map. exact Hij.
    - unfold pair_result_at. rewrite Hget. reflexivity. }
  unfold Checker.generate_report, bind, lift. rewrite Hp. reflexivity.
Qed.

Lemma generate_report_matrix_too_small_witness :
  Checker.generate_report [essay_a; essay_b; essay_c] [[1; 1 # 2]; [1 # 2; 1]]
                          (1 # 2) (console [])
  = (console [], Raise IndexError).
Proof.
  apply (@generate_report_matrix_too_small [essay_a; essay_b; essay_c]
           [[1; 1 # 2]; [1 # 2; 1]] (1 # 2) (console []) 0%nat 2%nat
           IndexError).
  - simpl. lia.
  - reflexivity.
Defined.

(* ===================================================================== *)
(** ** Reading the threshold and the mode                                 *)
(* ===================================================================== *)

(** X12.  Reading the threshold never raises, whatever [float] does and
    also at the end of the input: it either returns a threshold and prints
    nothing, or prints the "Invalid input" message once and returns 0.50;
    it takes at most one line from the input. *)
Theorem read_threshold_never_raises :
  forall (float : pystr -> result Q) (w : world),
    (exists t,
        Checker.read_threshold float w
        = ({| stdin := tl (stdin w); stdout := stdout w |}, Ok t)) \/
    Checker.read_threshold float w
    = ({| stdin := tl (stdin w); stdout := stdout w ++ [Invalid_threshold] |},
       Ok (1 # 2)).
Proof.
  intros float [lines out].
  unfold Checker.read_threshold, try_except, bind, input, lift. simpl.
  destruct lines as [|line rest]; simpl.
  - right. reflexivity.
  - destruct (float (strip line)) as [v|e]; simpl.
    + left. exists (v / 100). reflexivity.
    + right. reflexivity.
Qed.

(** X13.  The mode line is read outside the [try] block and the threshold
    line inside it.  With the input at its end, [main] stops with [EOFError]
    right after the banner, without looking at the folder; with the mode
    line alone, the missing threshold line counts as invalid input and
    [main] goes on with the threshold 0.50. *)
Theorem main_at_end_of_input :
  forall fs fit_transform sqrt float (out : list event),
    Checker.main fs fit_transform sqrt float {| stdin := []; stdout := out |}
    = ({| stdin := []; stdout := out ++ [Banner] |}, Raise EOFError) /\
    forall mode_line : pystr,
      Checker.main fs fit_transform sqrt float
                   {| stdin := [mode_line]; stdout := out |}
      = Checker.run fs fit_transform sqrt (strip mode_line) (1 # 2)
                    {| stdin := [];
                       stdout := out ++ [Banner; Invalid_threshold] |}.
Proof.
  intros fs ft sqrt float out. split; [reflexivity|].
  intros mode_line. unfold Checker.main.
  unfold bind at 1. rewrite print_printed.
  unfold bind at 1. unfold input at 1. simpl.
  unfold bind at 1.
  unfold Checker.read_threshold, try_except, bind at 1, input at 1. simpl.
  rewrite <- app_assoc. reflexivity.
Qed.

(* ===================================================================== *)
(** ** Whole runs on valid documents                                      *)
(* ===================================================================== *)


Lemma nonempty_by_length {A} (l : list A) (n : nat) :
  length l = n -> (0 < n)%nat -> l <> [].
Proof. intros H Hn ->. simpl in H. lia. Qed.

(** X14.  When every upload can be read, at least two of them have text,
    and the vectorizer returns, for the texts of this run and the n-gram
    range of the chosen mode, one feature row per text, the analysis of the
    GUI ends normally: it shows one warning per upload without text, the
    summary for the [n] valid documents and their [n (n - 1) / 2] pairs, the
    badge of the first row of the sorted results, one line for every row,
    marked by comparison with the slider, and hands all rows to the report
    writers. *)
Theorem gui_analysis_on_valid_uploads :
  forall fit_transform sqrt (mode : pystr) (threshold : Z)
         (files : list file) (w : world),
    Forall gui_readable files ->
    (2 <= length (filter gui_valid files))%nat ->
    (exists tfidf,
        fit_transform (if pystr_eqb mode GuiApp.ENHANCED
                       then (1, 5)%nat else (1, 3)%nat)
                      (map gui_text_of (filter gui_valid files)) = Ok tfidf /\
        length tfidf = length (filter gui_valid files)) ->
    exists pairs highest lowest avg,
      length pairs
      = (length (filter gui_valid files)
         * (length (filter gui_valid files) - 1) / 2)%nat /\
      hd_error (sort_desc pairs) = Some highest /\
      GuiApp.run_similarity_analysis fit_transform sqrt mode threshold files w
      = (printed w
           (flat_map gui_warning_of files
            ++ Summary (length (filter gui_valid files)) (length pairs)
                       highest lowest avg
            :: Highest_similarity highest
                                  (GuiApp.plagiarism_badge (score highest))
            :: map (gui_line threshold) (sort_desc pairs)
            ++ [Reports_saved
                  (map (fun r => (r, GuiApp.similarity_risk_level (score r)))
                       (sort_desc pairs))]),
         Ok tt).
Proof.
  intros ft sqrt mode threshold files w Hall Hn Hvec.
  set (kept := filter gui_valid files) in *.
  set (texts := map gui_text_of kept).
  set (names := map name kept).
  destruct Hvec as (X & HX & HXlen). fold texts in HX.
  assert (Hsq : square (length names) (cosine_similarity sqrt X)).
  { unfold names. rewrite length_map, <- HXlen.
    apply cosine_similarity_square. }
  destruct (@pair_results_square names _ Hsq) as (pairs & Hp & Hlen).
  unfold names in Hlen. rewrite length_map in Hlen.
  assert (Hne : sort_desc pairs <> []).
  { apply (@nonempty_by_length _ _ (length pairs)).
    - apply sort_desc_length.
    - rewrite Hlen. apply pairs_positive. exact Hn. }
  destruct (summarize_nonempty Hne) as (highest & lowest & avg & Hsum & Hhd).
  exists pairs, highest, lowest, avg.
  split; [exact Hlen|]. split; [exact Hhd|].
  unfold GuiApp.run_similarity_analysis.
  assert (Hfiles : (length files <? 2)%nat = false).
  { apply Nat.ltb_ge. pose proof (filter_length_le gui_valid files). 
    fold kept in H. lia. }
  rewrite Hfiles. unfold bind at 1.
  rewrite extract_loop_readable by exact Hall.
  fold kept. fold texts. fold names.
  change ([] ++ texts) with texts. change ([] ++ names) with names.
  assert (Htexts : (length texts <? 2)%nat = false).
  { apply Nat.ltb_ge. unfold texts. rewrite length_map. exact Hn. }
  rewrite Htexts.
  unfold bind at 1. unfold lift at 1. unfold GuiApp.compute_similarity.
  rewrite HX. simpl bind_result.
  unfold bind at 1. unfold lift at 1. rewrite Hp.
  unfold bind at 1. unfold lift at 1. rewrite Hsum.
  unfold bind at 1. rewrite print_printed.
  unfold bind at 1. rewrite print_printed.
  unfold bind at 1.
  rewrite (for_each_print (gui_line threshold)).
  rewrite print_printed. rewrite !printed_app.
  unfold names at 1. rewrite length_map, sort_desc_length. reflexivity.
Qed.

Lemma gui_analysis_on_valid_uploads_witness :
  exists pairs highest lowest avg,
    length pairs
    = (length (filter gui_valid sample_folder)
       * (length (filter gui_valid sample_folder) - 1) / 2)%nat /\
    hd_error (sort_desc pairs) = Some highest /\
    GuiApp.run_similarity_analysis vocabulary_vectorizer floor_sqrt [] 50
                                   sample_folder (console [])
    = (printed (console [])
         (flat_map gui_warning_of sample_folder
          ++ Summary (length (filter gui_valid sample_folder)) (length pairs)
                     highest lowest avg
          :: Highest_similarity highest
                                (GuiApp.plagiarism_badge (score highest))
          :: map (gui_line 50) (sort_desc pairs)
          ++ [Reports_saved
                (map (fun r => (r, GuiApp.similarity_risk_level (score r)))
                     (sort_desc pairs))]),
       Ok tt).
Proof.
  apply gui_analysis_on_valid_uploads.
  - readable_by_computation.
  - vm_compute. lia.
  - eexists. split; [reflexivity|]. reflexivity.
Defined.




(* ===================================================================== *)
(** ** More on sorting and on the enumeration of pairs                    *)
(* ===================================================================== *)

(** X16.  Sorting a list that is already in descending order of score
    changes nothing; in particular sorting twice is sorting once. *)
Theorem sort_desc_fixes_sorted_lists :
  forall l : list pair_result,
    (sorted_desc l -> sort_desc l = l) /\
    sort_desc (sort_desc l) = sort_desc l.
Proof.
  assert (H : forall l, sorted_desc l -> sort_desc l = l).
  { intros l Hs. symmetry. apply sort_desc_unique; [exact Hs|].
    intros v. reflexivity. }
  intros l. split; [apply H|]. apply H. apply sort_desc_sorted.
Qed.

Lemma sort_desc_fixes_sorted_lists_witness :
  sort_desc [([], [], 90); ([], [], 90); ([], [], 30)]
  = [([], [], 90); ([], [], 90); ([], [], 30)].
Proof.
  apply (proj1 (sort_desc_fixes_sorted_lists _)).
  repeat constructor; vm_compute; discriminate.
Defined.

Lemma StronglySorted_app {A} (R : A -> A -> Prop) (l1 l2 : list A) :
  StronglySorted R l1 -> StronglySorted R l2 ->
  (forall x y, In x l1 -> In y l2 -> R x y) ->
  StronglySorted R (l1 ++ l2).
Proof.
  intros H1 H2 H12. induction H1 as [|a l1 Hs IH Ha]; simpl; [exact H2|].
  constructor.
  - apply IH. intros x y Hx Hy. apply H12; [right|]; assumption.
  - apply Forall_app. split; [exact Ha|].
    apply Forall_forall. intros y Hy. apply H12; [left; reflexivity|exact Hy].
Qed.

Lemma StronglySorted_row (i a len : nat) :
  StronglySorted lex_lt (map (fun j => (i, j)) (seq a len)).
Proof.
  revert a. induction len as [|len IH]; intros a; simpl; constructor.
  - apply IH.
  - apply Forall_forall. intros [i' j'] Hin. apply in_map_iff in Hin.
    destruct Hin as (j & Heq & Hj). injection Heq as <- <-.
    apply in_seq in Hj. right. simpl. lia.
Qed.

Lemma StronglySorted_pairs_from (n len a : nat) :
  StronglySorted lex_lt
    (flat_map (fun i => map (fun j => (i, j)) (range (i + 1) n)) (seq a len)).
Proof.
  revert a. induction len as [|len IH]; intros a; simpl.
  - constructor.
  - apply StronglySorted_app.
    + apply StronglySorted_row.
    + apply IH.
    + intros [i j] [i' j'] H1 H2. apply in_map_iff in H1.
      destruct H1 as (y & Heq & _). injection Heq as <- _.
      apply In_pairs_from in H2. left. simpl. lia.
Qed.

(** X17.  The pairs are enumerated in strictly increasing lexicographic
    order of [(i, j)]; this is the order that ties in the report sort
    keep. *)
Theorem index_pairs_lexicographic :
  forall n : nat, StronglySorted lex_lt (index_pairs n).
Proof. intros n. apply StronglySorted_pairs_from. Qed.

Lemma mapM_Ok_Forall2 {A B} (f : A -> result B) (l : list A) :
  forall bs, mapM f l = Ok bs -> Forall2 (fun a b => f a = Ok b) l bs.
Proof.
  induction l as [|a l IH]; simpl; intros bs H.
  - injection H as <-. constructor.
  - destruct (f a) as [b|e] eqn:Ea; simpl in H; [|discriminate H].
    destruct (mapM f l) as [bs'|e] eqn:El; simpl in H; [|discriminate H].
    injection H as <-. constructor; [exact Ea | apply IH; reflexivity].
Qed.

Lemma index_Ok {A} (l : list A) (i : nat) (a : A) :
  index l i = Ok a -> nth_error l i = Some a.
Proof.
  unfold index. destruct (nth_error l i); intros H; [|discriminate H].
  injection H as ->. reflexivity.
Qed.

(** Where the two names of a row come from. *)
Lemma pair_results_origin (names : list pystr) (M : matrix)
      (results : list pair_result) (r : pair_result) :
  pair_results names M = Ok results -> In r results ->
  exists i j,
    (i < j < length names)%nat /\
    nth_error names i = Some (fst (fst r)) /\
    nth_error names j = Some (snd (fst r)).
Proof.
  intros H Hin. unfold pair_results in H. apply mapM_Ok_Forall2 in H.
  assert (G : exists ij, In ij (index_pairs (length names)) /\
                         pair_result_at names M ij = Ok r).
  { clear -H Hin. induction H as [|ij r' l l' Hij _ IH]; [contradiction|].
    destruct Hin as [->|Hin].
    - exists ij. split; [left; reflexivity | exact Hij].
    - destruct (IH Hin) as (ij' & H1 & H2). exists ij'.
      split; [right; exact H1 | exact H2]. }
  destruct G as ([i j] & Hpair & Hat). exists i, j.
  apply In_index_pairs in Hpair. split; [exact Hpair|].
  apply pair_result_at_inv in Hat.
  destruct Hat as (m & ni & nj & row & _ & _ & _ & Hi & Hj & ->).
  simpl in *. split; apply index_Ok; assumption.
Qed.

(** X18.  When the names of the documents are pairwise different, as the
    file names of one folder are, no row of the results compares a document
    with itself, and no two documents are compared in both orders. *)
Theorem no_self_pair_and_no_reversed_pair :
  forall (names : list pystr) (M : matrix) (results : list pair_result),
    NoDup names ->
    pair_results names M = Ok results ->
    (forall r, In r results -> fst (fst r) <> snd (fst r)) /\
    (forall a b s s', In (a, b, s) results -> ~ In (b, a, s') results).
Proof.
  intros names M results Hnd Hres. split.
  - intros r Hin Heq.
    destruct (@pair_results_origin names M results r Hres Hin) as (i & j & Hij & Hi & Hj).
    rewrite <- Heq in Hj.
    assert (i = j).
    { apply (proj1 (NoDup_nth_error names) Hnd); [lia|]. congruence. }
    lia.
  - intros a b s s' H1 H2.
    destruct (@pair_results_origin names M results _ Hres H1) as (i & j & Hij & Hi & Hj).
    destruct (@pair_results_origin names M results _ Hres H2)
      as (i' & j' & Hij' & Hi' & Hj').
    simpl in *.
    assert (i' = j).
    { apply (proj1 (NoDup_nth_error names) Hnd); [lia|]. congruence. }
    assert (j' = i).
    { apply (proj1 (NoDup_nth_error names) Hnd); [lia|]. congruence. }
    lia.
Qed.

Lemma no_self_pair_and_no_reversed_pair_witness :
  (forall r, In r [(py "a.txt", py "b.txt", (1 # 2) * 100);
                   (py "a.txt", py "c.txt", 0 * 100);
                   (py "b.txt", py "c.txt", (1 # 4) * 100)] ->
             fst (fst r) <> snd (fst r)) /\
  (forall a b s s',
      In (a, b, s) [(py "a.txt", py "b.txt", (1 # 2) * 100);
                    (py "a.txt", py "c.txt", 0 * 100);
                    (py "b.txt", py "c.txt", (1 # 4) * 100)] ->
      ~ In (b, a, s') [(py "a.txt", py "b.txt", (1 # 2) * 100);
                       (py "a.txt", py "c.txt", 0 * 100);
                       (py "b.txt", py "c.txt", (1 # 4) * 100)]).
Proof.
  apply (@no_self_pair_and_no_reversed_pair sample_names sample_matrix).
  - repeat constructor; simpl; intros H;
      repeat (destruct H as [H|H]; [vm_compute in H; discriminate H|]);
      exact H.
  - reflexivity.
Defined.

(* ===================================================================== *)
(** ** The PDF report                                                     *)
(* ===================================================================== *)

Lemma drawn_rows_app (a b : list canvas_op) :
  drawn_rows (a ++ b) = drawn_rows a ++ drawn_rows b.
Proof. unfold drawn_rows. apply flat_map_app. Qed.

Lemma truncation_notice_app (a b : list canvas_op) :
  truncation_notice (a ++ b) = truncation_notice a || truncation_notice b.
Proof. unfold truncation_notice. apply existsb_app. Qed.

Lemma draw_rows_cons (height : Q) (r : pair_result)
      (rest : list pair_result) (y : Q) (count : nat) :
  draw_rows height (r :: rest) y count
  = (if below_margin y then [ShowPage; SetFont Helvetica 10] else [])
    ++ DrawString x_margin (if below_margin y then height - 50 else y)
                  (Row_line r (GuiApp.similarity_risk_level (score r)))
    :: (if (max_rows <=? S count)%nat
        then [DrawString x_margin
                         ((if below_margin y then height - 50 else y) - 12)
                         Truncated_line]
        else draw_rows height rest
                       ((if below_margin y then height - 50 else y) - 12)
                       (S count)).
Proof. reflexivity. Qed.

Lemma drawn_rows_page (y : Q) (ops : list canvas_op) :
  drawn_rows ((if below_margin y then [ShowPage; SetFont Helvetica 10]
               else []) ++ ops)
  = drawn_rows ops.
Proof. destruct (below_margin y); reflexivity. Qed.

Lemma truncation_notice_page (y : Q) (ops : list canvas_op) :
  truncation_notice ((if below_margin y then [ShowPage; SetFont Helvetica 10]
                      else []) ++ ops)
  = truncation_notice ops.
Proof. destruct (below_margin y); reflexivity. Qed.

Lemma draw_rows_excel (height : Q) (results : list pair_result) :
  forall (y : Q) (count : nat),
    (count < max_rows)%nat ->
    map excel_of_drawn (drawn_rows (draw_rows height results y count))
    = firstn (max_rows - count) (tl (create_excel_report results)).
Proof.
  unfold create_excel_report. simpl tl.
  induction results as [|r rest IH]; intros y count Hc.
  - simpl. rewrite firstn_nil. reflexivity.
  - rewrite draw_rows_cons, drawn_rows_page.
    replace (max_rows - count)%nat with (S (max_rows - S count)) by lia.
    remember (max_rows - S count)%nat as k eqn:Hk.
    remember (max_rows <=? S count)%nat as full eqn:Hfull.
    change (drawn_rows (?op :: ?ops))
      with ((fun (o : canvas_op) =>
               match o with
               | DrawString _ y (Row_line r risk) => [(y, r, risk)]
               | _ => []
               end) op ++ drawn_rows ops).
    cbv beta iota. simpl app. simpl map at 1. simpl firstn.
    f_equal. subst k. destruct full; symmetry in Hfull.
    + apply Nat.leb_le in Hfull.
      replace (max_rows - S count)%nat with 0%nat by lia. reflexivity.
    + apply Nat.leb_gt in Hfull. apply IH. exact Hfull.
Qed.

Lemma draw_rows_notice (height : Q) (results : list pair_result) :
  forall (y : Q) (count : nat),
    (count < max_rows)%nat ->
    truncation_notice (draw_rows height results y count)
    = (max_rows - count <=? length results)%nat.
Proof.
  induction results as [|r rest IH]; intros y count Hc.
  - change (false = (max_rows - count <=? 0)%nat).
    symmetry. apply Nat.leb_gt. lia.
  - rewrite draw_rows_cons, truncation_notice_page.
    change (truncation_notice (?op :: ?ops))
      with ((fun (o : canvas_op) =>
               match o with
               | DrawString _ _ Truncated_line => true
               | _ => false
               end) op || truncation_notice ops).
    cbv beta iota. rewrite orb_false_l.
    destruct (max_rows <=? S count)%nat eqn:E.
    + apply Nat.leb_le in E. simpl length.
      symmetry. apply Nat.leb_le. lia.
    + apply Nat.leb_gt in E. rewrite (IH _ _ E). simpl length.
      destruct (Nat.leb_spec (max_rows - S count) (length rest));
        symmetry; [apply Nat.leb_le | apply Nat.leb_gt]; lia.
Qed.

(** X19.  The PDF report shows the first 80 data rows of the worksheet of
    [create_excel_report], in the same order and with the same risk labels,
    and no other detail row.  It carries the truncation notice exactly when
    there are 80 results or more: also for exactly 80, when no row is left
    out. *)
Theorem pdf_report_shows_first_80_rows :
  forall (height : Q) (results : list pair_result)
         (highest lowest : pair_result) (avg : Q)
         (num_docs num_comparisons : nat),
    map excel_of_drawn
        (drawn_rows (create_pdf_report height results highest lowest avg
                                       num_docs num_comparisons))
    = firstn 80 (tl (create_excel_report results)) /\
    truncation_notice (create_pdf_report height results highest lowest avg
                                         num_docs num_comparisons)
    = (80 <=? length results)%nat.
Proof.
  intros height results highest lowest avg nd nc.
  assert (H0 : (0 < max_rows)%nat) by (unfold max_rows; lia).
  unfold create_pdf_report. split.
  - rewrite drawn_rows_app. simpl drawn_rows at 1. simpl app.
    rewrite drawn_rows_app. simpl drawn_rows at 2. rewrite app_nil_r.
    rewrite (draw_rows_excel height results _ H0). reflexivity.
  - rewrite truncation_notice_app. simpl truncation_notice at 1.
    rewrite orb_false_l, truncation_notice_app.
    simpl truncation_notice at 2. rewrite orb_false_r.
    rewrite (draw_rows_notice height results _ H0). reflexivity.
Qed.

Lemma below_margin_false (y : Q) : below_margin y = false -> 60 <= y.
Proof.
  unfold below_margin. intros H. apply negb_false_iff in H.
  apply Qle_bool_iff. exact H.
Qed.

Lemma draw_rows_margins (height : Q) (results : list pair_result) :
  110 <= height ->
  forall (y : Q) (count : nat),
    y <= height - 50 ->
    Forall (fun x => 60 <= fst (fst x) /\ fst (fst x) <= height - 50)
           (drawn_rows (draw_rows height results y count)).
Proof.
  intros Hh. induction results as [|r rest IH]; intros y count Hy.
  - constructor.
  - rewrite draw_rows_cons, drawn_rows_page.
    remember (max_rows <=? S count)%nat as full eqn:Hfull.
    change (drawn_rows (?op :: ?ops))
      with ((fun (o : canvas_op) =>
               match o with
               | DrawString _ y (Row_line r risk) => [(y, r, risk)]
               | _ => []
               end) op ++ drawn_rows ops).
    cbv beta iota. simpl app.
    assert (Hy' : 60 <= (if below_margin y then height - 50 else y) /\
                  (if below_margin y then height - 50 else y) <= height - 50).
    { destruct (below_margin y) eqn:E.
      - split; lra.
      - apply below_margin_false in E. split; [exact E | exact Hy]. }
    constructor; [exact Hy'|].
    destruct full.
    + constructor.
    + apply IH. lra.
Qed.

(** X20.  On a page at least 110 points high, every detail row of the PDF
    report is drawn between the bottom margin of 60 points and the top
    position of the page, [height - 50]: a new page is started before a row
    would fall below the margin. *)
Theorem pdf_rows_stay_above_the_margin :
  forall (height : Q) (results : list pair_result)
         (highest lowest : pair_result) (avg : Q)
         (num_docs num_comparisons : nat),
    110 <= height ->
    Forall (fun x => 60 <= fst (fst x) /\ fst (fst x) <= height - 50)
           (drawn_rows (create_pdf_report height results highest lowest avg
                                          num_docs num_comparisons)).
Proof.
  intros height results highest lowest avg nd nc Hh.
  unfold create_pdf_report.
  rewrite drawn_rows_app. simpl drawn_rows at 1. simpl app.
  rewrite drawn_rows_app. simpl drawn_rows at 2. rewrite app_nil_r.
  apply draw_rows_margins; [exact Hh | lra].
Qed.

Lemma pdf_rows_stay_above_the_margin_witness :
  Forall (fun x => 60 <= fst (fst x) /\ fst (fst x) <= A4_height - 50)
         (drawn_rows (create_pdf_report A4_height
                        [(py "a.txt", py "b.txt", 50);
                         (py "a.txt", py "c.txt", 0)]
                        (py "a.txt", py "b.txt", 50)
                        (py "a.txt", py "c.txt", 0) 25 3 2)).
Proof.
  apply pdf_rows_stay_above_the_margin. vm_compute. discriminate.
Defined.

(* ===================================================================== *)
(** ** Runs that cannot start                                             *)
(* ===================================================================== *)

Lemma read_threshold_cases (float : pystr -> result Q) (w : world) :
  (exists t,
      Checker.read_threshold float w
      = ({| stdin := tl (stdin w); stdout := stdout w |}, Ok t)) \/
  Checker.read_threshold float w
  = ({| stdin := tl (stdin w); stdout := stdout w ++ [Invalid_threshold] |},
     Ok (1 # 2)).
Proof.
  destruct w as [lines out].
  unfold Checker.read_threshold, try_except, bind, input, lift. simpl.
  destruct lines as [|line rest]; simpl.
  - right. reflexivity.
  - destruct (float (strip line)) as [v|e]; simpl.
    + left. exists (v / 100). reflexivity.
    + right. reflexivity.
Qed.

(** X22.  [main] asks for the mode and the threshold before it looks at the
    folder.  When "submissions" is not a directory it raises
    [FileNotFoundError], and when the folder can be read but holds no valid
    document it raises [ValueError] after the warnings of its files; in both
    cases this happens whatever the two input lines are, after they have
    been consumed, and no similarity is computed. *)
Theorem main_fails_without_documents :
  forall fs fit_transform sqrt float (mode_line threshold_line : pystr)
         (rest : list pystr) (out : list event),
    (fs SUBMISSIONS_DIR = None ->
     exists notice,
       (notice = [] \/ notice = [Invalid_threshold]) /\
       Checker.main fs fit_transform sqrt float
                    {| stdin := mode_line :: threshold_line :: rest;
                       stdout := out |}
       = ({| stdin := rest; stdout := out ++ Banner :: notice |},
          Raise FileNotFoundError)) /\
    (forall files,
        fs SUBMISSIONS_DIR = Some files -> Forall readable files ->
        filter valid files = [] ->
        exists notice,
          (notice = [] \/ notice = [Invalid_threshold]) /\
          Checker.main fs fit_transform sqrt float
                       {| stdin := mode_line :: threshold_line :: rest;
                          stdout := out |}
          = ({| stdin := rest;
                stdout := out ++ Banner :: notice
                              ++ flat_map warning_of files |},
             Raise ValueError)).
Proof.
  intros fs ft sqrt float mode_line threshold_line rest out.
  assert (Hmain : forall w' t,
             Checker.read_threshold float
               {| stdin := threshold_line :: rest; stdout := out ++ [Banner] |}
             = (w', Ok t) ->
             Checker.main fs ft sqrt float
               {| stdin := mode_line :: threshold_line :: rest;
                  stdout := out |}
             = Checker.run fs ft sqrt (strip mode_line) t w').
  { intros w' t Ht. unfold Checker.main.
    unfold bind at 1. rewrite print_printed.
    unfold bind at 1. unfold input at 1. simpl.
    unfold bind at 1. rewrite Ht. reflexivity. }
  assert (Hcases : exists notice t,
             (notice = [] \/ notice = [Invalid_threshold]) /\
             Checker.read_threshold float
               {| stdin := threshold_line :: rest; stdout := out ++ [Banner] |}
             = ({| stdin := rest; stdout := out ++ Banner :: notice |},
                Ok t)).
  { destruct (read_threshold_cases float
                {| stdin := threshold_line :: rest;
                   stdout := out ++ [Banner] |}) as [(t & Ht)|Ht];
      simpl in Ht.
    - exists [], t. split; [left; reflexivity | exact Ht].
    - exists [Invalid_threshold], (1 # 2). split; [right; reflexivity|].
      rewrite Ht, <- app_assoc. reflexivity. }
  destruct Hcases as (notice & t & Hnotice & Ht).
  split.
  - intros Hfs. exists notice. split; [exact Hnotice|].
    rewrite (Hmain _ _ Ht). unfold Checker.run, bind at 1.
    unfold Checker.load_documents. rewrite Hfs. reflexivity.
  - intros files Hfs Hall Hnone. exists notice. split; [exact Hnotice|].
    rewrite (Hmain _ _ Ht). unfold Checker.run, bind at 1.
    rewrite (load_documents_unfold _ _ _ Hfs).
    rewrite load_loop_readable by exact Hall. rewrite Hnone.
    unfold printed. simpl.
    replace ((out ++ Banner :: notice) ++ flat_map warning_of files)
      with (out ++ Banner :: notice ++ flat_map warning_of files)
      by (rewrite <- app_assoc; reflexivity).
    reflexivity.
Qed.

Lemma main_fails_without_documents_witness :
  (exists notice,
      (notice = [] \/ notice = [Invalid_threshold]) /\
      Checker.main (fun _ => None) length_vectorizer floor_sqrt digits_float
                   {| stdin := [py "1"; py "50"]; stdout := [] |}
      = ({| stdin := []; stdout := [] ++ Banner :: notice |},
         Raise FileNotFoundError)) /\
  (exists notice,
      (notice = [] \/ notice = [Invalid_threshold]) /\
      Checker.main (folder_with [blank_d; image_e]) length_vectorizer
                   floor_sqrt digits_float
                   {| stdin := [py "1"; py "50"]; stdout := [] |}
      = ({| stdin := [];
            stdout := [] ++ Banner :: notice
                         ++ flat_map warning_of [blank_d; image_e] |},
         Raise ValueError)).
Proof.
  destruct (@main_fails_without_documents (fun _ => None) length_vectorizer
              floor_sqrt digits_float (py "1") (py "50") [] [])
    as [T1 _].
  destruct (@main_fails_without_documents (folder_with [blank_d; image_e])
              length_vectorizer floor_sqrt digits_float (py "1") (py "50")
              [] [])
    as [_ T2].
  split.
  - apply T1. reflexivity.
  - apply (T2 [blank_d; image_e]).
    + reflexivity.
    + readable_by_computation.
    + reflexivity.
Defined.
